(** * unlock.vet: the benefit matching engine

    A shallow embedding of the location-based benefit lookup
    ([getBenefitsForLocation], [matchBenefits], [calculateMatch],
    [checkRequirement], [lookupZipCode]) together with the data types of
    the schema it works on, and the properties of the engine.

    Conventions of the embedding:
    - an optional field [f?: T] is an [option T]; [None] is [undefined];
    - JS strings are [string], compared with [String.eqb] (what [===] and
      [Array.prototype.includes] do on strings);
    - a JS number is the rational it denotes: counters and array lengths
      are [nat], scores are [Z], the quantities of profiles and criteria
      are [Q]; a division or multiplication rounds its exact result to
      the nearest double, ties to even ([JS.toDouble]);
    - the mutable locals of [calculateMatch] are threaded through the loop
      as an explicit state record;
    - [Array.prototype.sort] is the stable sort of ECMAScript 2019;
    - a property read on an object literal finds its own keys and then
      the names of [Object.prototype] ([JS.Object_prototype]). *)

From Stdlib Require Import List String Bool Arith ZArith.
From Stdlib Require Import QArith Qround Qpower Lia Lqa.
From Stdlib Require Import Sorted Permutation.
Import ListNotations.

(** ** Primitives of the host language *)

Module JS.

(** [Array.prototype.includes] on an array of strings. *)
Definition includes (xs : list string) (x : string) : bool :=
  existsb (String.eqb x) xs.

(** [xs.includes(v)] for a value read from a field that may be
    [undefined]: an array of strings holds no [undefined]. *)
Definition includesValue (xs : list string) (v : option string) : bool :=
  match v with
  | Some x => includes xs x
  | None => false
  end.

(** A field value inside a template literal: [undefined] is written
    'undefined'. *)
Definition toString (v : option string) : string :=
  match v with
  | Some x => x
  | None => "undefined"%string
  end.

(** The names every plain object inherits from [Object.prototype]; read
    as a property, each gives a function, ['__proto__'] the prototype
    itself. *)
Definition Object_prototype : list string :=
  [ "constructor"; "__defineGetter__"; "__defineSetter__"; "hasOwnProperty";
    "__lookupGetter__"; "__lookupSetter__"; "isPrototypeOf";
    "propertyIsEnumerable"; "toString"; "valueOf"; "__proto__";
    "toLocaleString" ]%string.

(** [xs?.length] used as a condition: the array exists and is not empty. *)
Definition hasLength {A : Type} (xs : option (list A)) : bool :=
  match xs with
  | Some (_ :: _) => true
  | Some [] | None => false
  end.

(** [m === null] on a three-valued verdict. *)
Definition isNull {A : Type} (m : option A) : bool :=
  match m with
  | None => true
  | Some _ => false
  end.

(** [b === true] on an optional boolean. *)
Definition isTrue (b : option bool) : bool :=
  match b with
  | Some true => true
  | Some false | None => false
  end.

(** An optional boolean used as a condition: [undefined] and [false]
    are falsy. *)
Definition truthyFlag (b : option bool) : bool :=
  match b with
  | Some true => true
  | Some false | None => false
  end.

(** [a >= b] on numbers. *)
Definition geq (a b : Q) : bool := Qle_bool b a.

(** The exponent of a positive real: the [e] with [2^e <= q < 2^(e+1)].
    The difference of the bit lengths of numerator and denominator is
    [e] or [e + 1]. *)
Definition exponent (q : Q) : Z :=
  let e := (Z.log2 (Qnum q) - Z.log2 (Zpos (Qden q)))%Z in
  if Qle_bool (2 ^ e) q then e else (e - 1)%Z.

(** The nearest integer, a tie going to the even one. *)
Definition nearestEven (q : Q) : Z :=
  let f := Qfloor q in
  match Qcompare (q - inject_Z f) (1 # 2) with
  | Lt => f
  | Gt => (f + 1)%Z
  | Eq => if Z.even f then f else (f + 1)%Z
  end.

(** A positive real rounded to 53 significant bits. *)
Definition roundPositive (q : Q) : Q :=
  let ulp := 2 ^ (exponent q - 52) in
  inject_Z (nearestEven (q / ulp)) * ulp.

(** The double nearest to a real (binary64, round to nearest, ties to
    even).  The exponent is not bounded: overflow and subnormal numbers
    are not modelled. *)
Definition toDouble (q : Q) : Q :=
  match Qnum q with
  | Z0 => 0
  | Zpos _ => roundPositive q
  | Zneg _ => - roundPositive (- q)
  end.

(** [a / b] for [b] other than zero, and [a * b]. *)
Definition div (a b : Q) : Q := toDouble (a / b).
Definition mul (a b : Q) : Q := toDouble (a * b).

(** A counter as a number. *)
Definition number (n : nat) : Q := inject_Z (Z.of_nat n).

(** [Math.round]: the nearest integer, halves going up. *)
Definition Math_round (q : Q) : Z := Qfloor (q + (1 # 2)).

(** [Array.prototype.sort] with a comparator [cmp]: [cmp a b > 0] asks
    for [a] to be placed after [b].  The sort is stable (ECMAScript
    2019 and later): an element never overtakes one it compares equal
    to.  An element taken from the front is inserted into the sorted
    rest and moves right only past elements it must follow. *)
Section Sort.
Variable A : Type.
Variable cmp : A -> A -> Z.

Fixpoint insert (x : A) (l : list A) : list A :=
  match l with
  | [] => [x]
  | y :: l' => if (0 <? cmp x y)%Z then y :: insert x l' else x :: l
  end.

Fixpoint Array_sort (l : list A) : list A :=
  match l with
  | [] => []
  | x :: l' => insert x (Array_sort l')
  end.
End Sort.

Arguments insert {A} cmp x l.
Arguments Array_sort {A} cmp l.

End JS.

(** ** Data model (the schema) *)

Inductive BenefitLevel := federal | state | county | city | nonprofit.

Inductive BenefitCategory :=
  healthcare | disability | education | housing
| employment | financial | burial | family.


(** [a === b] on levels. *)
Definition BenefitLevel_eqb (a b : BenefitLevel) : bool :=
  match a, b with
  | federal, federal | state, state | county, county
  | city, city | nonprofit, nonprofit => true
  | _, _ => false
  end.

(** The structured criteria of a requirement.  [checkRequirement] takes
    them as [any] and reads [requiresSpouse] besides the fields the schema
    declares. *)
Record Criteria := {
  minServiceDays : option Q;
  dischargeTypes : option (list string);
  minDisabilityRating : option Q;
  maxIncome : option Q;
  minAge : option Q;
  maxAge : option Q;
  requiresSpouse : option bool
}.

Record EligibilityRequirement := {
  req_type : string;
  description : string;
  criteria : option Criteria
}.

Record Coverage := {
  states : option (list string);
  counties : option (list string);
  cities : option (list string);
  zipCodes : option (list string)
}.

Record Eligibility := {
  elig_summary : string;
  requirements : list EligibilityRequirement
}.

(** A catalog entry.  The [action], [source] and tag fields of the schema
    are carried by no function of the engine and are left out. *)
Record Benefit := {
  id : string;
  name : string;
  category : BenefitCategory;
  level : BenefitLevel;
  coverage : Coverage;
  eligibility : Eligibility
}.

Inductive IncomeLevel := low | medium | high.

Record VeteranProfile := {
  zipCode : string;
  profile_state : option string;
  profile_county : option string;
  serviceEras : option (list string);
  branchOfService : option string;
  dischargeStatus : option string;
  yearsOfService : option Q;
  disabilityRating : option Q;
  incomeLevel : option IncomeLevel;
  hasSpouse : option bool;
  hasDependents : option bool;
  isSurvivor : option bool
}.

Inductive EligibilityStatus := likely | possible | unlikely | unknown.

Record BenefitMatch := {
  benefit : Benefit;
  matchScore : Z;
  eligibilityStatus : EligibilityStatus;
  matchedRequirements : list string;
  missingInfo : list string
}.

Record ZipLocation := {
  zip : string;
  loc_city : string;
  loc_county : string;
  countyFips : string;
  loc_state : string;
  stateCode : string
}.

(** ** Location resolver *)

Definition sampleData : list (string * ZipLocation) :=
  [ ("78701", {| zip := "78701"; loc_city := "Austin";
                 loc_county := "Travis County"; countyFips := "48453";
                 loc_state := "Texas"; stateCode := "TX" |});
    ("78205", {| zip := "78205"; loc_city := "San Antonio";
                 loc_county := "Bexar County"; countyFips := "48029";
                 loc_state := "Texas"; stateCode := "TX" |});
    ("77001", {| zip := "77001"; loc_city := "Houston";
                 loc_county := "Harris County"; countyFips := "48201";
                 loc_state := "Texas"; stateCode := "TX" |}) ]%string.

(** The own keys of the literal. *)
Fixpoint lookupKey (table : list (string * ZipLocation)) (k : string)
  : option ZipLocation :=
  match table with
  | [] => None
  | (k', v) :: rest => if String.eqb k k' then Some v else lookupKey rest k
  end.

(** What [sampleData[zip]] is when it is not [undefined]: an entry of
    the table, or what the name gives on [Object.prototype].  Both are
    truthy, so [|| null] lets both through. *)
Inductive Resolved :=
| Entry (location : ZipLocation)
| Inherited (name : string).

(** [sampleData[zip] || null]: the own keys first, then the prototype. *)
Definition lookupZipCode (zip : string) : option Resolved :=
  match lookupKey sampleData zip with
  | Some location => Some (Entry location)
  | None =>
    if JS.includes JS.Object_prototype zip then Some (Inherited zip)
    else None
  end.

(** [location.field]: an inherited function or the prototype has none of
    the fields of a location, and the read gives [undefined]. *)
Definition readField (field : ZipLocation -> string) (location : Resolved)
  : option string :=
  match location with
  | Entry l => Some (field l)
  | Inherited _ => None
  end.

(** ** Location filter *)

Definition isFederal (b : Benefit) : bool := BenefitLevel_eqb (level b) federal.

(** [`${location.city}, ${location.stateCode}`]. *)
Definition cityKey (location : Resolved) : string :=
  (JS.toString (readField loc_city location) ++ ", "
   ++ JS.toString (readField stateCode location))%string.

(** One coverage dimension of the callback of [getBenefitsForLocation]:
    [if (dim?.length) { if (!dim.includes(v)) return false; }] leaves
    through [return false] exactly when this holds. *)
Definition excludes (dim : option (list string)) (v : option string) : bool :=
  JS.hasLength dim &&
  match dim with
  | Some xs => negb (JS.includesValue xs v)
  | None => false
  end.

(** The callback of the second [filter] of [getBenefitsForLocation], with
    the [location] and [zipCode] it closes over. *)
Definition appliesAt (location : Resolved) (zipCode : string)
  (benefit : Benefit) : bool :=
  if isFederal benefit then true else
  let coverage := coverage benefit in
  if excludes (states coverage) (readField stateCode location) then false else
  if excludes (counties coverage) (readField countyFips location) then false else
  if excludes (cities coverage) (Some (cityKey location)) then false else
  if excludes (zipCodes coverage) (Some zipCode) then false else
  true.

Definition getBenefitsForLocation (zipCode : string)
  (allBenefits : list Benefit) : list Benefit :=
  match lookupZipCode zipCode with
  | None => filter isFederal allBenefits
  | Some location => filter (appliesAt location zipCode) allBenefits
  end.

(** ** Requirement evaluator *)

(** The pair [{ met, needsInfo }]; [met = None] is [null]. *)
Record CheckResult := {
  met : option bool;
  needsInfo : bool
}.

Definition indeterminate : CheckResult := {| met := None; needsInfo := true |}.

Definition verdict (b : bool) : CheckResult :=
  {| met := Some b; needsInfo := false |}.

Definition checkRequirement (profile : VeteranProfile)
  (req : EligibilityRequirement) : CheckResult :=
  match criteria req with
  | None => indeterminate
  | Some criteria =>
    if (req_type req =? "disability")%string then
      match disabilityRating profile with
      | None => indeterminate
      | Some rating =>
        match minDisabilityRating criteria with
        | Some minRating => verdict (JS.geq rating minRating)
        | None => indeterminate
        end
      end
    else if (req_type req =? "service")%string then
      (* [criteria.dischargeTypes && profile.dischargeStatus]: an array is
         truthy whenever it is there, a string when it is not empty *)
      match dischargeTypes criteria, dischargeStatus profile with
      | Some types, Some (String _ _ as status) =>
        verdict (JS.includes types status)
      | _, _ =>
        match minServiceDays criteria, yearsOfService profile with
        | Some minDays, Some years =>
          let serviceDays := JS.mul years 365 in
          verdict (JS.geq serviceDays minDays)
        | _, _ => indeterminate
        end
      end
    else if (req_type req =? "income")%string then
      match incomeLevel profile with
      | None => indeterminate
      | Some _ => indeterminate
      end
    else if (req_type req =? "family")%string then
      if JS.truthyFlag (requiresSpouse criteria) && JS.isNull (hasSpouse profile)
      then indeterminate
      else if JS.truthyFlag (requiresSpouse criteria)
      then verdict (JS.isTrue (hasSpouse profile))
      else indeterminate
    else indeterminate
  end.

(** ** Match scorer *)

(** The locals the loop of [calculateMatch] updates. *)
Record ScorerState := {
  metRequirements : nat;
  matchedSoFar : list string;
  missingSoFar : list string
}.

Definition initialState : ScorerState :=
  {| metRequirements := 0; matchedSoFar := []; missingSoFar := [] |}.

(** One iteration of the loop body. *)
Definition scoreRequirement (profile : VeteranProfile) (st : ScorerState)
  (req : EligibilityRequirement) : ScorerState :=
  let r := checkRequirement profile req in
  if JS.isTrue (met r) then
    {| metRequirements := S (metRequirements st);
       matchedSoFar := matchedSoFar st ++ [description req];
       missingSoFar := missingSoFar st |}
  else if JS.isNull (met r) || needsInfo r then
    {| metRequirements := metRequirements st;
       matchedSoFar := matchedSoFar st;
       missingSoFar := missingSoFar st ++ [description req] |}
  else st.

(** [(metRequirements / totalRequirements) * 100], on two counters. *)
Definition percent (metRequirements totalRequirements : nat) : Q :=
  JS.mul (JS.div (JS.number metRequirements) (JS.number totalRequirements)) 100.

(** [totalRequirements > 0 ? Math.round((met / total) * 100) : 50]. *)
Definition scoreOf (metRequirements totalRequirements : nat) : Z :=
  if (0 <? totalRequirements)%nat
  then JS.Math_round (percent metRequirements totalRequirements)
  else 50%Z.

(** What [calculateMatch] returns. *)
Record MatchResult := {
  cm_matchScore : Z;
  cm_eligibilityStatus : EligibilityStatus;
  cm_matchedRequirements : list string;
  cm_missingInfo : list string
}.

Definition calculateMatch (profile : VeteranProfile) (benefit : Benefit)
  : MatchResult :=
  let totalRequirements := List.length (requirements (eligibility benefit)) in
  let st := fold_left (scoreRequirement profile)
                      (requirements (eligibility benefit)) initialState in
  let matchScore := scoreOf (metRequirements st) totalRequirements in
  let eligibilityStatus :=
    if (List.length (missingSoFar st) =? totalRequirements)%nat then unknown
    else if (80 <=? matchScore)%Z then likely
    else if (50 <=? matchScore)%Z then possible
    else unlikely in
  {| cm_matchScore := matchScore;
     cm_eligibilityStatus := eligibilityStatus;
     cm_matchedRequirements := matchedSoFar st;
     cm_missingInfo := missingSoFar st |}.

(** ** Match pipeline *)

Definition toMatch (profile : VeteranProfile) (benefit : Benefit)
  : BenefitMatch :=
  let r := calculateMatch profile benefit in
  {| benefit := benefit;
     matchScore := cm_matchScore r;
     eligibilityStatus := cm_eligibilityStatus r;
     matchedRequirements := cm_matchedRequirements r;
     missingInfo := cm_missingInfo r |}.

(** The comparator [(a, b) => b.matchScore - a.matchScore]. *)
Definition byScoreDesc (a b : BenefitMatch) : Z :=
  (matchScore b - matchScore a)%Z.

Definition matchBenefits (profile : VeteranProfile)
  (benefits : list Benefit) : list BenefitMatch :=
  let locationBenefits := getBenefitsForLocation (zipCode profile) benefits in
  JS.Array_sort byScoreDesc (map (toMatch profile) locationBenefits).

(** ** Verdicts of the requirements of a benefit *)

(** The requirement is met: [met === true]. *)
Definition isMet (profile : VeteranProfile) (req : EligibilityRequirement) : bool :=
  JS.isTrue (met (checkRequirement profile req)).

(** The requirement is open: [met === null]. *)
Definition isOpen (profile : VeteranProfile) (req : EligibilityRequirement) : bool :=
  JS.isNull (met (checkRequirement profile req)).

(** ** The invariant of a match *)

(** The score is a percentage, and the two lists together hold at most one
    entry per requirement of the benefit. *)
Definition BenefitMatch_ok (m : BenefitMatch) : Prop :=
  (0 <= matchScore m <= 100)%Z /\
  (List.length (matchedRequirements m) + List.length (missingInfo m)
   <= List.length (requirements (eligibility (benefit m))))%nat.

(** Descending order of scores. *)
Definition scoreGe (a b : BenefitMatch) : Prop :=
  (matchScore b <= matchScore a)%Z.

Definition hasScore (s : Z) (m : BenefitMatch) : bool :=
  (matchScore m =? s)%Z.

(** What a match shows of itself in the examples. *)
Definition summary (m : BenefitMatch) : string * Z * EligibilityStatus :=
  (id (benefit m), matchScore m, eligibilityStatus m).

(** ** Sample data

    Entries of the federal and Texas catalogs and the profiles used as
    concrete inputs below. *)

Module Sample.
Local Open Scope string_scope.

Definition criteriaWith (days : option Q) (types : option (list string))
  (rating : option Q) (income : option Q) (spouse : option bool) : Criteria :=
  {| minServiceDays := days; dischargeTypes := types;
     minDisabilityRating := rating; maxIncome := income;
     minAge := None; maxAge := None; requiresSpouse := spouse |}.

Definition noCoverage : Coverage :=
  {| states := None; counties := None; cities := None; zipCodes := None |}.

Definition texas : Coverage :=
  {| states := Some ["TX"]; counties := None; cities := None;
     zipCodes := None |}.

Definition req (t d : string) (c : option Criteria) : EligibilityRequirement :=
  {| req_type := t; description := d; criteria := c |}.

Definition notDishonorable : Criteria :=
  criteriaWith None (Some ["honorable"; "general"; "other-than-honorable"])
               None None None.

Definition va_healthcare : Benefit :=
  {| id := "va-healthcare"; name := "VA Health Care";
     category := healthcare; level := federal; coverage := noCoverage;
     eligibility :=
       {| elig_summary := "Most veterans who served on active duty";
          requirements :=
            [ req "service" "Served on active duty (not just training)"
                (Some (criteriaWith (Some 1) None None None None));
              req "service" "Discharged under conditions other than dishonorable"
                (Some notDishonorable) ] |} |}.

Definition va_disability : Benefit :=
  {| id := "va-disability"; name := "VA Disability Compensation";
     category := disability; level := federal; coverage := noCoverage;
     eligibility :=
       {| elig_summary := "You served on active duty and have a service-connected disability.";
          requirements :=
            [ req "service" "Served on active duty, active duty for training, or inactive duty training" None;
              req "disability" "Have a service-connected disability" None;
              req "service" "Discharged under other than dishonorable conditions"
                (Some notDishonorable) ] |} |}.

Definition ratingRequirement : EligibilityRequirement :=
  req "disability" "Have a VA disability rating of 10% or higher"
    (Some (criteriaWith None None (Some 10) None None)).

Definition tx_property_tax : Benefit :=
  {| id := "tx-property-tax";
     name := "Texas Disabled Veteran Property Tax Exemption";
     category := financial; level := state; coverage := texas;
     eligibility :=
       {| elig_summary := "Texas resident with a VA disability rating";
          requirements :=
            [ ratingRequirement;
              req "other" "Own property in Texas as your residence" None ] |} |}.

(** A benefit without requirements, a requirement on the spouse and one
    on the income: the catalogs have none of these. *)
Definition bare : Benefit :=
  {| id := "bare"; name := "No requirements";
     category := family; level := federal; coverage := noCoverage;
     eligibility := {| elig_summary := ""; requirements := [] |} |}.

Definition spouseRequirement : EligibilityRequirement :=
  req "family" "Married to the veteran"
    (Some (criteriaWith None None None None (Some true))).

Definition incomeRequirement : EligibilityRequirement :=
  req "income" "Household income below the limit"
    (Some (criteriaWith None None None (Some 30000) None)).

Definition catalog : list Benefit :=
  [tx_property_tax; va_healthcare; va_disability].

Definition blank (z : string) : VeteranProfile :=
  {| zipCode := z; profile_state := None; profile_county := None;
     serviceEras := None; branchOfService := None;
     dischargeStatus := None; yearsOfService := None;
     disabilityRating := None; incomeLevel := None;
     hasSpouse := None; hasDependents := None; isSurvivor := None |}.

(** The profile [{zipCode:'78701', disabilityRating: 80,
    dischargeStatus:'honorable', yearsOfService: 5}]. *)
Definition austinVeteran : VeteranProfile :=
  {| zipCode := "78701"; profile_state := None; profile_county := None;
     serviceEras := None; branchOfService := None;
     dischargeStatus := Some "honorable"; yearsOfService := Some 5;
     disabilityRating := Some 80; incomeLevel := None;
     hasSpouse := None; hasDependents := None; isSurvivor := None |}.

(** A rating below the threshold of [tx_property_tax], a known income
    level and no spouse. *)
Definition lowRating : VeteranProfile :=
  {| zipCode := "78701"; profile_state := None; profile_county := None;
     serviceEras := None; branchOfService := None;
     dischargeStatus := None; yearsOfService := None;
     disabilityRating := Some 5; incomeLevel := Some low;
     hasSpouse := Some false; hasDependents := None; isSurvivor := None |}.

Definition austin : ZipLocation :=
  {| zip := "78701"; loc_city := "Austin";
     loc_county := "Travis County"; countyFips := "48453";
     loc_state := "Texas"; stateCode := "TX" |}.
End Sample.

(** ** Result grouper *)

Definition BenefitCategory_eq_dec (a b : BenefitCategory) : {a = b} + {a <> b}.
Proof. decide equality. Defined.

(** The object [groupBenefitsByCategory] builds: its keys are category
    names, kept in the order they were first written (no category name
    is an array index, so no key is moved to the front), each with the
    array stored under it. *)
Definition Groups : Type := list (BenefitCategory * list BenefitMatch).

(** [groups[category]]: the array under the key, [None] for [undefined]. *)
Fixpoint Object_get (groups : Groups) (k : BenefitCategory)
  : option (list BenefitMatch) :=
  match groups with
  | [] => None
  | (k', v) :: rest =>
    if BenefitCategory_eq_dec k' k then Some v else Object_get rest k
  end.

(** [groups[category] = v]: a key that is there keeps its place, a new
    key goes last. *)
Fixpoint Object_set (groups : Groups) (k : BenefitCategory)
  (v : list BenefitMatch) : Groups :=
  match groups with
  | [] => [(k, v)]
  | (k', v') :: rest =>
    if BenefitCategory_eq_dec k' k then (k', v) :: rest
    else (k', v') :: Object_set rest k v
  end.

(** The body of the loop of [groupBenefitsByCategory]; [push] changes
    the array in place, which the object then holds under the same key. *)
Definition groupMatch (groups : Groups) (m : BenefitMatch) : Groups :=
  let category := category (benefit m) in
  let groups :=
    match Object_get groups category with
    | None => Object_set groups category []
    | Some _ => groups
    end in
  match Object_get groups category with
  | Some array => Object_set groups category (array ++ [m])
  | None => groups
  end.

Definition groupBenefitsByCategory (matches : list BenefitMatch) : Groups :=
  fold_left groupMatch matches [].

(** ** Notions the further properties are stated with *)

(** [match.benefit.category]. *)
Definition categoryOf (m : BenefitMatch) : BenefitCategory :=
  category (benefit m).

(** The match belongs to the category. *)
Definition inCategory (c : BenefitCategory) (m : BenefitMatch) : bool :=
  if BenefitCategory_eq_dec (category (benefit m)) c then true else false.

(** The categories of a list, each once, in the order of their first
    occurrence. *)
Fixpoint firstSeen (cs : list BenefitCategory) : list BenefitCategory :=
  match cs with
  | [] => []
  | c :: rest => c :: remove BenefitCategory_eq_dec c (firstSeen rest)
  end.

(** The grouping said at once: under each category seen, in the order
    seen, the matches of that category. *)
Definition groupsOf (matches : list BenefitMatch) : Groups :=
  map (fun c => (c, filter (inCategory c) matches))
      (firstSeen (map categoryOf matches)).

(** [l1] is [l2] with some elements left out. *)
Inductive Subsequence {A : Type} : list A -> list A -> Prop :=
| sub_nil : Subsequence [] []
| sub_skip (x : A) (l1 l2 : list A) :
    Subsequence l1 l2 -> Subsequence l1 (x :: l2)
| sub_keep (x : A) (l1 l2 : list A) :
    Subsequence l1 l2 -> Subsequence (x :: l1) (x :: l2).

(** An absent or empty coverage dimension. *)
Definition unrestricted (dim : option (list string)) : Prop :=
  dim = None \/ dim = Some [].

(** Sample matches of three categories, for the grouper. *)
Definition sampleMatches : list BenefitMatch :=
  map (toMatch Sample.austinVeteran)
      [Sample.tx_property_tax; Sample.va_healthcare; Sample.bare;
       Sample.va_disability; Sample.tx_property_tax].

(** A service requirement with both criteria, and a veteran discharged
    honorably after one year. *)
Definition serviceRequirement : EligibilityRequirement :=
  Sample.req "service" "Two years of service, discharged honorably"
    (Some (Sample.criteriaWith (Some 730) (Some ["honorable"]%string)
                               None None None)).

Definition daysRequirement : EligibilityRequirement :=
  Sample.req "service" "At least 181 days of active duty service"
    (Some (Sample.criteriaWith (Some 181) None None None None)).

Definition oneYear : VeteranProfile :=
  {| zipCode := "78701"; profile_state := None; profile_county := None;
     serviceEras := None; branchOfService := None;
     dischargeStatus := Some "honorable"%string; yearsOfService := Some 1;
     disabilityRating := None; incomeLevel := None;
     hasSpouse := None; hasDependents := None; isSurvivor := None |}.

(** A profile whose discharge status is the empty string, and one that
    differs from the blank profile of Austin in fields the engine does
    not read. *)
Definition emptyStatus : VeteranProfile :=
  {| zipCode := "78701"; profile_state := None; profile_county := None;
     serviceEras := None; branchOfService := None;
     dischargeStatus := Some ""%string; yearsOfService := Some 1;
     disabilityRating := None; incomeLevel := None;
     hasSpouse := None; hasDependents := None; isSurvivor := None |}.

Definition noStatus : VeteranProfile :=
  {| zipCode := "78701"; profile_state := None; profile_county := None;
     serviceEras := None; branchOfService := None;
     dischargeStatus := None; yearsOfService := Some 1;
     disabilityRating := None; incomeLevel := None;
     hasSpouse := None; hasDependents := None; isSurvivor := None |}.

Definition survivor : VeteranProfile :=
  {| zipCode := "78701"; profile_state := Some "TX"%string;
     profile_county := None;
     serviceEras := Some ["vietnam"%string]; branchOfService := None;
     dischargeStatus := None; yearsOfService := None;
     disabilityRating := None; incomeLevel := Some high;
     hasSpouse := None; hasDependents := Some true;
     isSurvivor := Some true |}.

(** A nonprofit program without any coverage entry. *)
Definition anywhere : Benefit :=
  {| id := "anywhere"; name := "Open program";
     category := employment; level := nonprofit;
     coverage := Sample.noCoverage;
     eligibility := {| elig_summary := ""; requirements := [] |} |}.

(** * Properties *)

Local Open Scope string_scope.

(** ** The location filter *)

Section LocationFilter.

Lemma includes_In (xs : list string) (x : string) :
  JS.includes xs x = true <-> In x xs.
Proof.
  unfold JS.includes. rewrite existsb_exists. split.
  - intros (y & Hy & Heq). apply String.eqb_eq in Heq. now subst.
  - intros Hin. exists x. split; [assumption | apply String.eqb_refl].
Qed.

Lemma isFederal_iff (b : Benefit) : isFederal b = true <-> level b = federal.
Proof. unfold isFederal. destruct (level b); simpl; split; congruence. Qed.

(** A dimension lets a value through exactly when the dimension is
    absent, empty, or lists the value. *)
Lemma excludes_false_iff (dim : option (list string)) (v : string) :
  excludes dim (Some v) = false <->
  (forall xs, dim = Some xs -> xs <> [] -> In v xs).
Proof.
  unfold excludes. destruct dim as [[|x xs]|];
    cbn [JS.hasLength JS.includesValue andb].
  - split; [intros _ ys [= <-] Hne; now elim Hne | reflexivity].
  - rewrite negb_false_iff, includes_In. split.
    + intros Hin ys [= <-] _. exact Hin.
    + intros H. apply (H (x :: xs)); [reflexivity | discriminate].
  - split; [intros _ ys [=] | reflexivity].
Qed.

(** A value that is [undefined] passes only a dimension that is absent
    or empty. *)
Lemma excludes_undefined (dim : option (list string)) :
  excludes dim None = false <-> unrestricted dim.
Proof.
  unfold excludes, unrestricted. destruct dim as [[|x xs]|]; cbn.
  - split; [now right | reflexivity].
  - split; [discriminate | intros [H|H]; discriminate].
  - split; [now left | reflexivity].
Qed.

(** What the callback of the filter decides, for any location of the
    table. *)
Lemma appliesAt_iff (location : ZipLocation) (zipCode : string) (b : Benefit) :
  appliesAt (Entry location) zipCode b = true <->
  level b = federal \/
  ((forall xs, states (coverage b) = Some xs -> xs <> [] ->
               In (stateCode location) xs) /\
   (forall xs, counties (coverage b) = Some xs -> xs <> [] ->
               In (countyFips location) xs) /\
   (forall xs, cities (coverage b) = Some xs -> xs <> [] ->
               In (loc_city location ++ ", " ++ stateCode location) xs) /\
   (forall xs, zipCodes (coverage b) = Some xs -> xs <> [] ->
               In zipCode xs)).
Proof.
  rewrite <- !excludes_false_iff, <- isFederal_iff.
  unfold appliesAt, cityKey. cbn [readField JS.toString].
  destruct (isFederal b); [intuition auto|].
  destruct (excludes (states _) _), (excludes (counties _) _),
    (excludes (cities _) _), (excludes (zipCodes _) _);
    intuition congruence.
Qed.


End LocationFilter.

(** C1.  At a postal code the resolver maps to a location, a benefit of
    the catalog is kept if and only if its level is federal, or each of
    its coverage dimensions (states, counties, cities, zipCodes) that is
    present and not empty lists the location's value: the state code, the
    county FIPS identifier, the string "{city}, {stateCode}", and the
    postal code as it was passed in.  An absent or empty dimension puts no
    condition on the benefit. *)
Theorem getBenefitsForLocation_resolved :
  forall (zipCode : string) (location : ZipLocation) (allBenefits : list Benefit),
    lookupZipCode zipCode = Some (Entry location) ->
    forall b : Benefit,
      In b (getBenefitsForLocation zipCode allBenefits) <->
      In b allBenefits /\
      (level b = federal \/
       ((forall xs, states (coverage b) = Some xs -> xs <> [] ->
                    In (stateCode location) xs) /\
        (forall xs, counties (coverage b) = Some xs -> xs <> [] ->
                    In (countyFips location) xs) /\
        (forall xs, cities (coverage b) = Some xs -> xs <> [] ->
                    In (loc_city location ++ ", " ++ stateCode location) xs) /\
        (forall xs, zipCodes (coverage b) = Some xs -> xs <> [] ->
                    In zipCode xs))).
Proof.
  intros zipCode location allBenefits Hres b.
  unfold getBenefitsForLocation. rewrite Hres.
  now rewrite filter_In, appliesAt_iff.
Qed.


(** ** The requirement evaluator *)

Section Evaluator.
Variable profile : VeteranProfile.

(** Every path of the evaluator ends in one of two shapes. *)
Lemma checkRequirement_shape (req : EligibilityRequirement) :
  checkRequirement profile req = indeterminate \/
  exists b, checkRequirement profile req = verdict b.
Proof.
  unfold checkRequirement.
  destruct (criteria req) as [c|]; [|now left].
  destruct (req_type req =? "disability").
  { destruct (disabilityRating profile), (minDisabilityRating c); eauto. }
  destruct (req_type req =? "service").
  { destruct (dischargeTypes c), (dischargeStatus profile) as [[|? ?]|],
      (minServiceDays c), (yearsOfService profile); eauto. }
  destruct (req_type req =? "income").
  { destruct (incomeLevel profile); eauto. }
  destruct (req_type req =? "family"); [|now left].
  destruct (JS.truthyFlag (requiresSpouse c)), (hasSpouse profile); simpl; eauto.
Qed.

Lemma needsInfo_iff_null (req : EligibilityRequirement) :
  needsInfo (checkRequirement profile req) = true <->
  met (checkRequirement profile req) = None.
Proof.
  destruct (checkRequirement_shape req) as [-> | [b ->]]; simpl;
    split; congruence.
Qed.

(** A requirement on the spouse whose flag is not raised is left to the
    default. *)
Lemma family_flag_not_raised (req : EligibilityRequirement) (c : Criteria) :
  req_type req = "family" -> criteria req = Some c ->
  requiresSpouse c <> Some true ->
  checkRequirement profile req = indeterminate.
Proof.
  intros Ht Hc Hflag. unfold checkRequirement. rewrite Hc, Ht. simpl.
  destruct (requiresSpouse c) as [[|]|]; simpl; congruence.
Qed.
End Evaluator.

(** C5.  For a requirement of type 'family' whose criteria have
    [requiresSpouse] set (the flag holds [true], which is what the
    evaluator tests): when the profile does not say whether there is a
    spouse the evaluator answers (null, needsInfo); when it says so, the
    verdict is that answer ([hasSpouse === true]) and no information is
    needed. *)
Theorem family_requiresSpouse :
  forall (profile : VeteranProfile) (req : EligibilityRequirement) (c : Criteria),
    req_type req = "family" ->
    criteria req = Some c ->
    requiresSpouse c = Some true ->
    (hasSpouse profile = None ->
     checkRequirement profile req = {| met := None; needsInfo := true |}) /\
    (forall known : bool, hasSpouse profile = Some known ->
     checkRequirement profile req = {| met := Some known; needsInfo := false |}).
Proof.
  intros profile req c Ht Hc Hflag.
  unfold checkRequirement. rewrite Hc, Ht, Hflag. simpl. split.
  - now intros ->.
  - intros known ->. now destruct known.
Qed.

(** C6.  A requirement of type 'income' is never resolved: with criteria
    or without, and whether or not the profile gives an income level, the
    evaluator answers (null, needsInfo). *)
Theorem income_never_resolved :
  forall (profile : VeteranProfile) (req : EligibilityRequirement),
    req_type req = "income" ->
    checkRequirement profile req = {| met := None; needsInfo := true |}.
Proof.
  intros profile req Ht. unfold checkRequirement. rewrite Ht. simpl.
  destruct (criteria req); [|reflexivity].
  now destruct (incomeLevel profile).
Qed.

(** ** The scorer *)

Section Scorer.
Variable profile : VeteranProfile.

(** The loop body, case by case on the verdict. *)
Lemma scoreRequirement_cases (st : ScorerState) (req : EligibilityRequirement) :
  scoreRequirement profile st req =
  if isMet profile req then
    {| metRequirements := S (metRequirements st);
       matchedSoFar := (matchedSoFar st ++ [description req])%list;
       missingSoFar := missingSoFar st |}
  else if isOpen profile req then
    {| metRequirements := metRequirements st;
       matchedSoFar := matchedSoFar st;
       missingSoFar := (missingSoFar st ++ [description req])%list |}
  else st.
Proof.
  unfold scoreRequirement, isMet, isOpen.
  destruct (checkRequirement_shape profile req) as [-> | [b ->]]; reflexivity.
Qed.

(** The state after the loop, from any state before it. *)
Lemma loop_state (reqs : list EligibilityRequirement) (st : ScorerState) :
  let st' := fold_left (scoreRequirement profile) reqs st in
  metRequirements st' =
    (metRequirements st + List.length (filter (isMet profile) reqs))%nat /\
  matchedSoFar st' =
    (matchedSoFar st ++ map description (filter (isMet profile) reqs))%list /\
  missingSoFar st' =
    (missingSoFar st ++ map description (filter (isOpen profile) reqs))%list.
Proof.
  revert st. induction reqs as [|req reqs IH]; intros st; simpl.
  - now rewrite Nat.add_0_r, !app_nil_r.
  - destruct (IH (scoreRequirement profile st req)) as (Hn & Hm & Ho).
    rewrite Hn, Hm, Ho, scoreRequirement_cases.
    unfold isOpen, isMet.
    destruct (met (checkRequirement profile req)) as [[|]|]; simpl;
      rewrite <- ?app_assoc; simpl; repeat split; lia.
Qed.

Lemma met_open_disjoint (reqs : list EligibilityRequirement) :
  (List.length (filter (isMet profile) reqs)
   + List.length (filter (isOpen profile) reqs)
   <= List.length reqs)%nat.
Proof.
  unfold isMet, isOpen.
  induction reqs as [|req reqs IH]; simpl; [lia|].
  destruct (met (checkRequirement profile req)) as [[|]|]; simpl; lia.
Qed.
End Scorer.

(** ** Rounding to the nearest double *)

Section Doubles.

Lemma pow2_pos (e : Z) : 0 < 2 ^ e.
Proof. now apply Qpower_0_lt. Qed.

Lemma pow2_le (a b : Z) : (a <= b)%Z -> 2 ^ a <= 2 ^ b.
Proof. intros H. apply Qpower_le_compat_l; [assumption | discriminate]. Qed.

Lemma pow2_lt_inv (a b : Z) : 2 ^ a < 2 ^ b -> (a < b)%Z.
Proof.
  intros H. destruct (Z.lt_ge_cases a b) as [Hlt|Hge]; [assumption|].
  apply pow2_le in Hge. lra.
Qed.

Lemma pow2_shift (k e : Z) : 2 ^ (e + k) == 2 ^ k * 2 ^ e.
Proof. rewrite Qpower_plus by discriminate. ring. Qed.

Lemma pow2_Z (k : Z) : (0 <= k)%Z -> inject_Z (2 ^ k) == 2 ^ k.
Proof. intros H. now rewrite Zpower_Qpower. Qed.

(** The difference of the bit lengths is within one of the exponent. *)
Lemma exponent_candidate (q : Q) :
  0 < q ->
  let e := (Z.log2 (Qnum q) - Z.log2 (Zpos (Qden q)))%Z in
  2 ^ (e - 1) <= q /\ q < 2 ^ (e + 1).
Proof.
  intros Hq e. destruct q as [n d]. cbn [Qnum Qden] in e.
  assert (Hn : (0 < n)%Z) by (unfold Qlt in Hq; simpl in Hq; lia).
  pose proof (Z.log2_spec n Hn) as [Hn1 Hn2].
  pose proof (Z.log2_spec (Zpos d) eq_refl) as [Hd1 Hd2].
  pose proof (Z.log2_nonneg n) as Hln.
  pose proof (Z.log2_nonneg (Zpos d)) as Hld.
  set (ln := Z.log2 n) in *. set (ld := Z.log2 (Zpos d)) in *.
  assert (E1 : 2 ^ (e - 1) == inject_Z (2 ^ ln) / inject_Z (2 ^ Z.succ ld)).
  { rewrite !pow2_Z by lia. unfold e.
    replace (ln - ld - 1)%Z with (ln - Z.succ ld)%Z by lia.
    apply Qpower_minus. discriminate. }
  assert (E2 : 2 ^ (e + 1) == inject_Z (2 ^ Z.succ ln) / inject_Z (2 ^ ld)).
  { rewrite !pow2_Z by lia. unfold e.
    replace (ln - ld + 1)%Z with (Z.succ ln - ld)%Z by lia.
    apply Qpower_minus. discriminate. }
  assert (Hp1 : (0 < 2 ^ ln)%Z) by (apply Z.pow_pos_nonneg; lia).
  assert (Hp2 : (0 < 2 ^ ld)%Z) by (apply Z.pow_pos_nonneg; lia).
  assert (Hp3 : (0 < 2 ^ Z.succ ld)%Z) by (apply Z.pow_pos_nonneg; lia).
  rewrite E1, E2, (Qmake_Qdiv n d). split.
  - apply Qle_shift_div_l; [rewrite <- (Zlt_Qlt 0); lia|].
    unfold Qdiv. rewrite <- Qmult_assoc, (Qmult_comm (/ _)), Qmult_assoc.
    apply Qle_shift_div_r; [rewrite <- (Zlt_Qlt 0); lia|].
    rewrite <- !inject_Z_mult, <- Zle_Qle. nia.
  - apply Qlt_shift_div_r; [rewrite <- (Zlt_Qlt 0); lia|].
    unfold Qdiv. rewrite <- Qmult_assoc, (Qmult_comm (/ _)), Qmult_assoc.
    apply Qlt_shift_div_l; [rewrite <- (Zlt_Qlt 0); lia|].
    rewrite <- !inject_Z_mult, <- Zlt_Qlt. nia.
Qed.

Lemma exponent_spec (q : Q) :
  0 < q -> 2 ^ JS.exponent q <= q /\ q < 2 ^ (JS.exponent q + 1).
Proof.
  intros Hq. destruct (exponent_candidate q Hq) as [Hlo Hhi].
  unfold JS.exponent.
  set (e := (Z.log2 (Qnum q) - Z.log2 (Zpos (Qden q)))%Z) in *.
  destruct (Qle_bool (2 ^ e) q) eqn:E.
  - apply Qle_bool_iff in E. now split.
  - split; [assumption|]. replace (e - 1 + 1)%Z with e by lia.
    apply Qnot_le_lt. intros H. apply Qle_bool_iff in H. congruence.
Qed.

Lemma exponent_mono (p q : Q) :
  0 < p -> p <= q -> (JS.exponent p <= JS.exponent q)%Z.
Proof.
  intros Hp Hpq.
  destruct (exponent_spec p Hp) as [Hp1 _].
  destruct (exponent_spec q) as [_ Hq2]; [lra|].
  assert (H : 2 ^ JS.exponent p < 2 ^ (JS.exponent q + 1)) by lra.
  apply pow2_lt_inv in H. lia.
Qed.

Lemma nearestEven_bounds (q : Q) :
  (Qfloor q <= JS.nearestEven q <= Qfloor q + 1)%Z.
Proof.
  unfold JS.nearestEven.
  destruct (Qcompare _ _); [destruct (Z.even _)| |]; lia.
Qed.

Lemma nearestEven_Z (n : Z) : JS.nearestEven (inject_Z n) = n.
Proof.
  unfold JS.nearestEven. rewrite Qfloor_Z.
  destruct (Qcompare_spec (inject_Z n - inject_Z n) (1 # 2)) as [H|H|H];
    [lra | reflexivity | lra].
Qed.

Lemma nearestEven_mono (p q : Q) :
  p <= q -> (JS.nearestEven p <= JS.nearestEven q)%Z.
Proof.
  intros Hpq.
  pose proof (Qfloor_resp_le _ _ Hpq) as Hfl.
  destruct (Z.eq_dec (Qfloor p) (Qfloor q)) as [E|N].
  - unfold JS.nearestEven. rewrite <- E.
    destruct (Qcompare_spec (p - inject_Z (Qfloor p)) (1 # 2)) as [Hp|Hp|Hp];
    destruct (Qcompare_spec (q - inject_Z (Qfloor p)) (1 # 2)) as [Hq|Hq|Hq];
      try lra; try lia; destruct (Z.even (Qfloor p)); lia.
  - pose proof (nearestEven_bounds p). pose proof (nearestEven_bounds q). lia.
Qed.

(** The significand of a positive real lies between 2^52 and 2^53. *)
Lemma significand_range (q : Q) :
  0 < q ->
  2 ^ 52 <= q / 2 ^ (JS.exponent q - 52) /\
  q / 2 ^ (JS.exponent q - 52) <= 2 ^ 53.
Proof.
  intros Hq. destruct (exponent_spec q Hq) as [Hlo Hhi].
  pose proof (pow2_pos (JS.exponent q - 52)) as Hulp.
  assert (E1 : 2 ^ JS.exponent q == 2 ^ 52 * 2 ^ (JS.exponent q - 52)).
  { rewrite <- pow2_shift. now replace (JS.exponent q - 52 + 52)%Z
      with (JS.exponent q) by lia. }
  assert (E2 : 2 ^ (JS.exponent q + 1) == 2 ^ 53 * 2 ^ (JS.exponent q - 52)).
  { rewrite <- pow2_shift. now replace (JS.exponent q - 52 + 53)%Z
      with (JS.exponent q + 1)%Z by lia. }
  split.
  - apply Qle_shift_div_l; [assumption|]. now rewrite <- E1.
  - apply Qle_shift_div_r; [assumption|]. rewrite <- E2. now apply Qlt_le_weak.
Qed.

Lemma roundPositive_range (q : Q) :
  0 < q ->
  2 ^ JS.exponent q <= JS.roundPositive q /\
  JS.roundPositive q <= 2 ^ (JS.exponent q + 1).
Proof.
  intros Hq. destruct (significand_range q Hq) as [Hlo Hhi].
  pose proof (pow2_pos (JS.exponent q - 52)) as Hulp.
  unfold JS.roundPositive.
  set (ulp := 2 ^ (JS.exponent q - 52)) in *.
  assert (E1 : 2 ^ JS.exponent q == inject_Z (2 ^ 52) * ulp).
  { rewrite pow2_Z by lia. unfold ulp. rewrite <- pow2_shift.
    now replace (JS.exponent q - 52 + 52)%Z with (JS.exponent q) by lia. }
  assert (E2 : 2 ^ (JS.exponent q + 1) == inject_Z (2 ^ 53) * ulp).
  { rewrite pow2_Z by lia. unfold ulp. rewrite <- pow2_shift.
    now replace (JS.exponent q - 52 + 53)%Z with (JS.exponent q + 1)%Z by lia. }
  rewrite E1, E2. split.
  - apply Qmult_le_compat_r; [|lra]. rewrite <- Zle_Qle.
    rewrite <- (nearestEven_Z (2 ^ 52)). apply nearestEven_mono.
    now rewrite pow2_Z by lia.
  - apply Qmult_le_compat_r; [|lra]. rewrite <- Zle_Qle.
    rewrite <- (nearestEven_Z (2 ^ 53)). apply nearestEven_mono.
    now rewrite pow2_Z by lia.
Qed.

Lemma roundPositive_pos (q : Q) : 0 < q -> 0 < JS.roundPositive q.
Proof.
  intros Hq. destruct (roundPositive_range q Hq) as [Hlo _].
  pose proof (pow2_pos (JS.exponent q)). lra.
Qed.

Lemma roundPositive_mono (p q : Q) :
  0 < p -> p <= q -> JS.roundPositive p <= JS.roundPositive q.
Proof.
  intros Hp Hpq. assert (Hq : 0 < q) by lra.
  pose proof (exponent_mono p q Hp Hpq) as He.
  destruct (Z.eq_dec (JS.exponent p) (JS.exponent q)) as [E|N].
  - unfold JS.roundPositive. rewrite E.
    pose proof (pow2_pos (JS.exponent q - 52)) as Hulp.
    apply Qmult_le_compat_r; [|lra]. rewrite <- Zle_Qle.
    apply nearestEven_mono. unfold Qdiv.
    apply Qmult_le_compat_r; [assumption|].
    apply Qlt_le_weak, Qinv_lt_0_compat, Hulp.
  - destruct (roundPositive_range p Hp) as [_ Hhi].
    destruct (roundPositive_range q Hq) as [Hlo _].
    assert (2 ^ (JS.exponent p + 1) <= 2 ^ JS.exponent q)
      by (apply pow2_le; lia).
    lra.
Qed.

Lemma Qnum_sign (q : Q) :
  match Qnum q with
  | Z0 => q == 0
  | Zpos _ => 0 < q
  | Zneg _ => q < 0
  end.
Proof. destruct q as [[|n|n] d]; unfold Qeq, Qlt; simpl; lia. Qed.

Lemma toDouble_sign (q : Q) :
  (q == 0 /\ JS.toDouble q = 0) \/
  (0 < q /\ JS.toDouble q = JS.roundPositive q) \/
  (q < 0 /\ JS.toDouble q = - JS.roundPositive (- q)).
Proof.
  pose proof (Qnum_sign q) as H. unfold JS.toDouble.
  destruct (Qnum q); auto.
Qed.

Lemma toDouble_mono (p q : Q) : p <= q -> JS.toDouble p <= JS.toDouble q.
Proof.
  intros Hpq.
  destruct (toDouble_sign p) as [[Hp ->] | [[Hp ->] | [Hp ->]]];
    destruct (toDouble_sign q) as [[Hq ->] | [[Hq ->] | [Hq ->]]];
    try lra.
  - apply Qlt_le_weak, roundPositive_pos, Hq.
  - now apply roundPositive_mono.
  - assert (0 < JS.roundPositive (- p)) by (apply roundPositive_pos; lra). lra.
  - assert (0 < JS.roundPositive (- p)) by (apply roundPositive_pos; lra).
    assert (0 < JS.roundPositive q) by (apply roundPositive_pos; lra). lra.
  - assert (JS.roundPositive (- q) <= JS.roundPositive (- p))
      by (apply roundPositive_mono; lra).
    lra.
Qed.

Lemma toDouble_compat (p q : Q) : p == q -> JS.toDouble p == JS.toDouble q.
Proof. intros E. apply Qle_antisym; apply toDouble_mono; lra. Qed.

Lemma exponent_unique (q : Q) (e : Z) :
  2 ^ e <= q -> q < 2 ^ (e + 1) -> JS.exponent q = e.
Proof.
  intros Hlo Hhi. pose proof (pow2_pos e) as He.
  destruct (exponent_spec q) as [Hlo' Hhi']; [lra|].
  assert (H1 : 2 ^ e < 2 ^ (JS.exponent q + 1)) by lra.
  assert (H2 : 2 ^ JS.exponent q < 2 ^ (e + 1)) by lra.
  apply pow2_lt_inv in H1, H2. lia.
Qed.

Lemma nearestEven_at (n : Z) (q : Q) : q == inject_Z n -> JS.nearestEven q = n.
Proof.
  intros E. rewrite <- (nearestEven_Z n).
  apply Z.le_antisymm; apply nearestEven_mono; lra.
Qed.

(** The integers up to 2^53 are doubles: counters and array lengths are
    exact. *)
Lemma toDouble_integer (n : Z) :
  (0 <= n <= 2 ^ 53)%Z -> JS.toDouble (inject_Z n) == inject_Z n.
Proof.
  intros Hn. destruct (Z.eq_dec n 0) as [-> | Hne]; [reflexivity|].
  assert (Hpos : (0 < n)%Z) by lia.
  destruct (toDouble_sign (inject_Z n)) as [[H _] | [[_ ->] | [H _]]];
    [unfold Qeq in H; simpl in H; lia | | unfold Qlt in H; simpl in H; lia].
  pose proof (Z.log2_spec n Hpos) as [Hlo Hhi].
  pose proof (Z.log2_nonneg n) as Hl.
  assert (Hl53 : (Z.log2 n <= 53)%Z).
  { rewrite <- (Z.log2_pow2 53) by lia. apply Z.log2_le_mono. lia. }
  assert (He : JS.exponent (inject_Z n) = Z.log2 n).
  { apply exponent_unique.
    - rewrite <- pow2_Z by lia. now rewrite <- Zle_Qle.
    - rewrite <- pow2_Z by lia. rewrite <- Zlt_Qlt. now rewrite Z.add_1_r. }
  unfold JS.roundPositive. rewrite He.
  destruct (Z.eq_dec (Z.log2 n) 53) as [E53 | N53].
  - (* n = 2^53: the unit in the last place is 2 *)
    assert (n = 2 ^ 53)%Z by (rewrite E53 in Hlo; lia). subst n.
    vm_compute. reflexivity.
  - set (k := (52 - Z.log2 n)%Z).
    assert (Hk : (0 <= k)%Z) by (unfold k; lia).
    assert (Eulp : 2 ^ (Z.log2 n - 52) == / inject_Z (2 ^ k)).
    { rewrite pow2_Z by assumption. rewrite <- Qpower_opp. unfold k.
      now replace (- (52 - Z.log2 n))%Z with (Z.log2 n - 52)%Z by lia. }
    assert (Hk0 : ~ inject_Z (2 ^ k) == 0).
    { rewrite pow2_Z by assumption. pose proof (pow2_pos k). lra. }
    rewrite (nearestEven_at (n * 2 ^ k)).
    + rewrite Eulp, inject_Z_mult. field. exact Hk0.
    + rewrite Eulp, inject_Z_mult. field. exact Hk0.
Qed.

Lemma toDouble_0 : JS.toDouble 0 == 0.
Proof. reflexivity. Qed.

Lemma toDouble_1 : JS.toDouble 1 == 1.
Proof. now apply (toDouble_integer 1). Qed.

Lemma toDouble_100 : JS.toDouble 100 == 100.
Proof. now apply (toDouble_integer 100). Qed.

(** The doubles written 0.1 and 0.145, and the product 0.145 * 100,
    which is 14.499999999999998. *)
Lemma toDouble_tenth :
  JS.toDouble (1 # 10) == 3602879701896397 # 36028797018963968 /\
  JS.div 29 200 == 5224175567749775 # 36028797018963968 /\
  JS.mul (JS.div 29 200) 100 == 8162774324609023 # 562949953421312.
Proof. repeat split; vm_compute; reflexivity. Qed.

End Doubles.

(** ** The score *)

Section Score.

Lemma Math_round_mono (p q : Q) :
  p <= q -> (JS.Math_round p <= JS.Math_round q)%Z.
Proof.
  intros Hpq. unfold JS.Math_round. apply Qfloor_resp_le. lra.
Qed.

Lemma number_nonneg (n : nat) : 0 <= JS.number n.
Proof. unfold JS.number. rewrite <- (Zle_Qle 0). apply Nat2Z.is_nonneg. Qed.

Lemma number_mono (m m' : nat) : (m <= m')%nat -> JS.number m <= JS.number m'.
Proof. intros H. unfold JS.number. rewrite <- Zle_Qle. lia. Qed.

Lemma ratio_mono (t m m' : nat) :
  (m <= m')%nat -> JS.number m / JS.number t <= JS.number m' / JS.number t.
Proof.
  intros Hm. unfold Qdiv. apply Qmult_le_compat_r.
  - now apply number_mono.
  - apply Qinv_le_0_compat, number_nonneg.
Qed.

Lemma ratio_full (t : nat) : (0 < t)%nat -> JS.number t / JS.number t == 1.
Proof.
  intros Ht. unfold Qdiv. apply Qmult_inv_r.
  unfold JS.number, Qeq. simpl. lia.
Qed.

Lemma percent_mono (t m m' : nat) :
  (m <= m')%nat -> percent m t <= percent m' t.
Proof.
  intros Hm. unfold percent, JS.mul, JS.div.
  apply toDouble_mono, Qmult_le_compat_r; [|discriminate].
  now apply toDouble_mono, ratio_mono.
Qed.

(** A real equal to a double [c] rounds to [c]. *)
Lemma toDouble_at (c q : Q) : JS.toDouble c == c -> q == c -> JS.toDouble q == c.
Proof. intros Hc E. now rewrite (toDouble_compat _ _ E). Qed.

Lemma percent_none (t : nat) : percent 0 t == 0.
Proof.
  unfold percent, JS.mul, JS.div.
  assert (E : JS.toDouble (JS.number 0 / JS.number t) == 0).
  { apply toDouble_at; [apply toDouble_0|].
    unfold JS.number, Qdiv; simpl; ring. }
  apply toDouble_at; [apply toDouble_0|]. rewrite E. ring.
Qed.

Lemma percent_full (t : nat) : (0 < t)%nat -> percent t t == 100.
Proof.
  intros Ht. unfold percent, JS.mul, JS.div.
  assert (E : JS.toDouble (JS.number t / JS.number t) == 1).
  { apply toDouble_at; [apply toDouble_1 | now apply ratio_full]. }
  apply toDouble_at; [apply toDouble_100|]. rewrite E. ring.
Qed.

Lemma scoreOf_positive_total (m t : nat) :
  (0 < t)%nat -> scoreOf m t = JS.Math_round (percent m t).
Proof.
  intros Ht. unfold scoreOf. apply Nat.ltb_lt in Ht. now rewrite Ht.
Qed.

Lemma scoreOf_no_requirements (m : nat) : scoreOf m 0 = 50%Z.
Proof. reflexivity. Qed.

Lemma scoreOf_mono (t m m' : nat) :
  (m <= m')%nat -> (scoreOf m t <= scoreOf m' t)%Z.
Proof.
  intros Hm. destruct t as [|t]; [reflexivity|].
  rewrite !scoreOf_positive_total by lia.
  now apply Math_round_mono, percent_mono.
Qed.

Lemma scoreOf_range (m t : nat) :
  (m <= t)%nat -> (0 <= scoreOf m t <= 100)%Z.
Proof.
  intros Hm. destruct t as [|t]; [rewrite scoreOf_no_requirements; lia|].
  rewrite scoreOf_positive_total by lia. split.
  - change 0%Z with (JS.Math_round 0).
    apply Math_round_mono.
    rewrite <- (percent_none (S t)). apply percent_mono. lia.
  - change 100%Z with (JS.Math_round 100).
    apply Math_round_mono.
    rewrite <- (percent_full (S t)) by lia.
    now apply percent_mono.
Qed.

(** All or none of the requirements met give 100 and 0. *)
Lemma scoreOf_extremes (t : nat) :
  (0 < t)%nat -> scoreOf 0 t = 0%Z /\ scoreOf t t = 100%Z.
Proof.
  intros Ht. rewrite !scoreOf_positive_total by assumption.
  unfold JS.Math_round. split.
  - change 0%Z with (Qfloor (0 + (1 # 2))). apply Qfloor_comp.
    now rewrite percent_none.
  - change 100%Z with (Qfloor (100 + (1 # 2))). apply Qfloor_comp.
    now rewrite percent_full.
Qed.

(** The quotient is rounded before it is multiplied: at 29 of 200, where
    the exact percentage is 14.5, the product is the double just below
    it and the score is 14. *)
Lemma scoreOf_below_half : scoreOf 29 200 = 14%Z /\ scoreOf 1 8 = 13%Z.
Proof. split; vm_compute; reflexivity. Qed.

End Score.

(** C10.  With the number of requirements fixed and positive, the score
    round((metCount / totalRequirements) * 100) does not go down when the
    number of met requirements goes up (both counts at most the total). *)
Theorem score_monotonic :
  forall totalRequirements metCount metCount' : nat,
    (0 < totalRequirements)%nat ->
    (metCount <= metCount')%nat ->
    (metCount' <= totalRequirements)%nat ->
    (scoreOf metCount totalRequirements
     <= scoreOf metCount' totalRequirements)%Z.
Proof.
  intros t m m' _ Hm _. now apply scoreOf_mono.
Qed.

(** ** The result of [calculateMatch] *)

Section CalculateMatch.
Variables (profile : VeteranProfile) (benefit : Benefit).

Lemma calculateMatch_matched :
  cm_matchedRequirements (calculateMatch profile benefit) =
  map description
      (filter (isMet profile) (requirements (eligibility benefit))).
Proof.
  unfold calculateMatch; cbn [cm_matchedRequirements].
  now destruct (loop_state profile (requirements (eligibility benefit))
                           initialState) as (_ & -> & _).
Qed.

Lemma calculateMatch_missing :
  cm_missingInfo (calculateMatch profile benefit) =
  map description
      (filter (isOpen profile) (requirements (eligibility benefit))).
Proof.
  unfold calculateMatch; cbn [cm_missingInfo].
  now destruct (loop_state profile (requirements (eligibility benefit))
                           initialState) as (_ & _ & ->).
Qed.

Lemma calculateMatch_score :
  cm_matchScore (calculateMatch profile benefit) =
  scoreOf
    (List.length (filter (isMet profile) (requirements (eligibility benefit))))
    (List.length (requirements (eligibility benefit))).
Proof.
  unfold calculateMatch; cbn [cm_matchScore].
  now destruct (loop_state profile (requirements (eligibility benefit))
                           initialState) as (-> & _ & _).
Qed.

Lemma calculateMatch_status :
  cm_eligibilityStatus (calculateMatch profile benefit) =
  if (List.length (cm_missingInfo (calculateMatch profile benefit))
      =? List.length (requirements (eligibility benefit)))%nat then unknown
  else if (80 <=? cm_matchScore (calculateMatch profile benefit))%Z then likely
  else if (50 <=? cm_matchScore (calculateMatch profile benefit))%Z then possible
  else unlikely.
Proof. reflexivity. Qed.

Lemma calculateMatch_lengths :
  (List.length (cm_matchedRequirements (calculateMatch profile benefit))
   + List.length (cm_missingInfo (calculateMatch profile benefit))
   <= List.length (requirements (eligibility benefit)))%nat.
Proof.
  rewrite calculateMatch_matched, calculateMatch_missing, !length_map.
  apply met_open_disjoint.
Qed.

Lemma calculateMatch_score_range :
  (0 <= cm_matchScore (calculateMatch profile benefit) <= 100)%Z.
Proof.
  rewrite calculateMatch_score. apply scoreOf_range, filter_length_le.
Qed.
End CalculateMatch.

(** C2.  The status of a match follows one order of tests: when the
    number of open requirements equals the number of requirements it is
    'unknown', whatever the score; otherwise a score of 80 or more makes
    it 'likely', a score from 50 to 79 'possible', and a lower score
    'unlikely'. *)
Theorem status_derivation :
  forall (profile : VeteranProfile) (benefit : Benefit),
    let r := calculateMatch profile benefit in
    let totalRequirements := List.length (requirements (eligibility benefit)) in
    (List.length (cm_missingInfo r) = totalRequirements ->
     cm_eligibilityStatus r = unknown) /\
    (List.length (cm_missingInfo r) <> totalRequirements ->
     (80 <= cm_matchScore r)%Z ->
     cm_eligibilityStatus r = likely) /\
    (List.length (cm_missingInfo r) <> totalRequirements ->
     (50 <= cm_matchScore r < 80)%Z ->
     cm_eligibilityStatus r = possible) /\
    (List.length (cm_missingInfo r) <> totalRequirements ->
     (cm_matchScore r < 50)%Z ->
     cm_eligibilityStatus r = unlikely).
Proof.
  intros profile benefit r total. subst r total.
  rewrite calculateMatch_status.
  destruct (Nat.eqb_spec
              (List.length (cm_missingInfo (calculateMatch profile benefit)))
              (List.length (requirements (eligibility benefit)))) as [E|N];
    repeat split; intros; try congruence;
    destruct (Z.leb_spec 80 (cm_matchScore (calculateMatch profile benefit)));
    destruct (Z.leb_spec 50 (cm_matchScore (calculateMatch profile benefit)));
    solve [reflexivity | lia].
Qed.

(** C4.  A benefit without requirements gets the score 50 and the status
    'unknown': the test for 'unknown' comes before the thresholds that
    would make 50 a 'possible'. *)
Theorem no_requirements_unknown :
  forall (profile : VeteranProfile) (benefit : Benefit),
    requirements (eligibility benefit) = [] ->
    cm_matchScore (calculateMatch profile benefit) = 50%Z /\
    cm_eligibilityStatus (calculateMatch profile benefit) = unknown.
Proof.
  intros profile benefit Hnone.
  unfold calculateMatch. rewrite Hnone. split; reflexivity.
Qed.

(** C7.  The evaluator asks for information exactly when its verdict is
    null, so a true or false verdict never comes with [needsInfo].  In
    the scorer, a requirement whose verdict is false therefore changes
    nothing: the list of matched requirements holds the descriptions of
    the requirements met, the list of missing information those of the
    requirements with a null verdict, both in the order of the benefit,
    and a requirement found not met is in neither. *)
Theorem needsInfo_exactly_when_null :
  forall profile : VeteranProfile,
    (forall req : EligibilityRequirement,
        needsInfo (checkRequirement profile req) = true <->
        met (checkRequirement profile req) = None) /\
    (forall (req : EligibilityRequirement) (st : ScorerState),
        met (checkRequirement profile req) = Some false ->
        scoreRequirement profile st req = st) /\
    (forall benefit : Benefit,
        cm_matchedRequirements (calculateMatch profile benefit) =
          map description
            (filter (fun req => JS.isTrue (met (checkRequirement profile req)))
                    (requirements (eligibility benefit))) /\
        cm_missingInfo (calculateMatch profile benefit) =
          map description
            (filter (fun req => JS.isNull (met (checkRequirement profile req)))
                    (requirements (eligibility benefit)))).
Proof.
  intros profile. split; [|split].
  - apply needsInfo_iff_null.
  - intros req st Hfalse. rewrite scoreRequirement_cases.
    unfold isMet, isOpen. now rewrite Hfalse.
  - intros benefit. split.
    + apply calculateMatch_matched.
    + apply calculateMatch_missing.
Qed.

(** ** Sorting the matches, highest score first *)

Lemma StronglySorted_weaken {A : Type} (R R' : A -> A -> Prop) (l : list A) :
  (forall a b, R a b -> R' a b) ->
  StronglySorted R l -> StronglySorted R' l.
Proof.
  intros Himp. induction 1 as [|a l _ IH Ha]; constructor; [exact IH|].
  eapply Forall_impl; [apply Himp | exact Ha].
Qed.

Section SortByScore.

Lemma insert_Permutation (x : BenefitMatch) (l : list BenefitMatch) :
  Permutation (x :: l) (JS.insert byScoreDesc x l).
Proof.
  induction l as [|y l IH]; simpl; [reflexivity|].
  destruct (0 <? byScoreDesc x y)%Z; [|reflexivity].
  rewrite perm_swap. now constructor.
Qed.

Lemma Array_sort_Permutation (l : list BenefitMatch) :
  Permutation l (JS.Array_sort byScoreDesc l).
Proof.
  induction l as [|x l IH]; simpl; [reflexivity|].
  rewrite <- insert_Permutation. now constructor.
Qed.

Lemma insert_sorted (x : BenefitMatch) (l : list BenefitMatch) :
  StronglySorted scoreGe l -> StronglySorted scoreGe (JS.insert byScoreDesc x l).
Proof.
  induction 1 as [|y l Hsorted IH Hy]; simpl.
  - repeat constructor.
  - unfold byScoreDesc at 1.
    destruct (Z.ltb_spec 0 (matchScore y - matchScore x)) as [Hlt|Hge].
    + constructor; [exact IH|].
      apply (Permutation_Forall (insert_Permutation x l)).
      constructor; [unfold scoreGe; lia | exact Hy].
    + constructor; [now constructor|].
      constructor; [unfold scoreGe; lia|].
      apply (Forall_impl _ (P := scoreGe y)); [|exact Hy].
      unfold scoreGe. intros z Hz. lia.
Qed.

Lemma Array_sort_sorted (l : list BenefitMatch) :
  StronglySorted scoreGe (JS.Array_sort byScoreDesc l).
Proof.
  induction l as [|x l IH]; simpl; [constructor | now apply insert_sorted].
Qed.

(** Inserting moves an element only past strictly higher scores, so the
    elements of one matchScore keep their order. *)
Lemma insert_keeps_order (s : Z) (x : BenefitMatch) (l : list BenefitMatch) :
  filter (hasScore s) (JS.insert byScoreDesc x l) = filter (hasScore s) (x :: l).
Proof.
  induction l as [|y l IH]; [reflexivity|].
  cbn [JS.insert]. unfold byScoreDesc at 1.
  destruct (Z.ltb_spec 0 (matchScore y - matchScore x)) as [Hlt|Hge]; [|reflexivity].
  cbn [filter] in *. rewrite IH. unfold hasScore.
  destruct (Z.eqb_spec (matchScore y) s), (Z.eqb_spec (matchScore x) s);
    solve [reflexivity | lia].
Qed.

Lemma Array_sort_stable (s : Z) (l : list BenefitMatch) :
  filter (hasScore s) (JS.Array_sort byScoreDesc l) = filter (hasScore s) l.
Proof.
  induction l as [|x l IH]; [reflexivity|].
  cbn [JS.Array_sort]. rewrite insert_keeps_order.
  cbn [filter]. now rewrite IH.
Qed.

(** A list sorted highest first is determined by the order it gives to
    the elements of each matchScore: whatever algorithm the engine runs, a
    stable sort has one possible result. *)
Lemma sorted_stable_unique (l1 l2 : list BenefitMatch) :
  StronglySorted scoreGe l1 -> StronglySorted scoreGe l2 ->
  (forall s, filter (hasScore s) l1 = filter (hasScore s) l2) ->
  l1 = l2.
Proof.
  intros H1. revert l2.
  induction H1 as [|x l1 Hs1 IH Hx]; intros l2 H2 Hsame.
  - destruct l2 as [|y l2]; [reflexivity|].
    specialize (Hsame (matchScore y)). cbn [filter] in Hsame.
    unfold hasScore in Hsame. now rewrite Z.eqb_refl in Hsame.
  - destruct H2 as [|y l2 Hs2 Hy].
    + specialize (Hsame (matchScore x)). cbn [filter] in Hsame.
      unfold hasScore in Hsame. now rewrite Z.eqb_refl in Hsame.
    + assert (Hkey : matchScore x = matchScore y).
      { assert (Hxy : (matchScore x <= matchScore y)%Z).
        { assert (Hin : In x (filter (hasScore (matchScore x)) (y :: l2))).
          { rewrite <- Hsame. cbn [filter]. unfold hasScore.
            rewrite Z.eqb_refl. now left. }
          apply filter_In in Hin. destruct Hin as [[<- | Hin] _]; [lia|].
          rewrite Forall_forall in Hy. apply (Hy x Hin). }
        assert (Hyx : (matchScore y <= matchScore x)%Z).
        { assert (Hin : In y (filter (hasScore (matchScore y)) (x :: l1))).
          { rewrite Hsame. cbn [filter]. unfold hasScore.
            rewrite Z.eqb_refl. now left. }
          apply filter_In in Hin. destruct Hin as [[<- | Hin] _]; [lia|].
          rewrite Forall_forall in Hx. apply (Hx y Hin). }
        lia. }
      assert (Hhead : x = y).
      { specialize (Hsame (matchScore x)). cbn [filter] in Hsame.
        unfold hasScore in Hsame. rewrite <- Hkey, Z.eqb_refl in Hsame.
        congruence. }
      subst y. f_equal. apply IH; [assumption|].
      intros s. specialize (Hsame s). cbn [filter] in Hsame.
      destruct (hasScore s x); congruence.
Qed.

(** Whatever list is sorted highest first and keeps, for each score, the
    order of [l], it is the result of [JS.Array_sort] on [l]. *)
Lemma Array_sort_characterised (l l' : list BenefitMatch) :
  StronglySorted scoreGe l' ->
  (forall s, filter (hasScore s) l' = filter (hasScore s) l) ->
  l' = JS.Array_sort byScoreDesc l.
Proof.
  intros Hsorted Hstable. apply sorted_stable_unique; [assumption| |].
  - apply Array_sort_sorted.
  - intros s. now rewrite Hstable, Array_sort_stable.
Qed.

End SortByScore.

(** ** The pipeline *)

Section Pipeline.
Variable profile : VeteranProfile.

Lemma toMatch_ok (b : Benefit) : BenefitMatch_ok (toMatch profile b).
Proof.
  split; cbn [toMatch matchScore matchedRequirements missingInfo benefit].
  - apply calculateMatch_score_range.
  - apply calculateMatch_lengths.
Qed.

Lemma benefit_toMatch (bs : list Benefit) :
  map benefit (map (toMatch profile) bs) = bs.
Proof. rewrite map_map. apply map_id. Qed.

Lemma filter_toMatch (p : BenefitMatch -> bool) (bs : list Benefit) :
  filter p (map (toMatch profile) bs) =
  map (toMatch profile) (filter (fun b => p (toMatch profile b)) bs).
Proof.
  induction bs as [|b bs IH]; [reflexivity|].
  cbn [map filter]. rewrite IH. now destruct (p (toMatch profile b)).
Qed.

Lemma matchBenefits_In (benefits : list Benefit) (m : BenefitMatch) :
  In m (matchBenefits profile benefits) <->
  exists b, In b (getBenefitsForLocation (zipCode profile) benefits) /\
            m = toMatch profile b.
Proof.
  unfold matchBenefits. split.
  - intros Hin.
    apply (Permutation_in _ (Permutation_sym (Array_sort_Permutation _))) in Hin.
    apply in_map_iff in Hin. destruct Hin as (b & <- & Hb). eauto.
  - intros (b & Hb & ->).
    apply (Permutation_in _ (Array_sort_Permutation _)).
    now apply in_map.
Qed.
End Pipeline.

(** C8.  The matches come out with the highest score first, every match
    scoring at least as much as all those after it, and the sort is
    stable: for each score, the matches of that score are in the order
    their benefits have in the location-filtered catalog.  The result has
    exactly the matches of the filtered catalog. *)
Theorem matchBenefits_sorted_stable :
  forall (profile : VeteranProfile) (benefits : list Benefit),
    let locationBenefits := getBenefitsForLocation (zipCode profile) benefits in
    let result := matchBenefits profile benefits in
    StronglySorted (fun a b => (matchScore a >= matchScore b)%Z) result /\
    Permutation (map (toMatch profile) locationBenefits) result /\
    (forall s : Z,
        filter (fun m => (matchScore m =? s)%Z) result =
        filter (fun m => (matchScore m =? s)%Z)
               (map (toMatch profile) locationBenefits)) /\
    (forall s : Z,
        map benefit (filter (fun m => (matchScore m =? s)%Z) result) =
        filter (fun b => (matchScore (toMatch profile b) =? s)%Z)
               locationBenefits).
Proof.
  intros profile benefits locationBenefits result.
  assert (Hstable : forall s,
             filter (hasScore s) result =
             filter (hasScore s) (map (toMatch profile) locationBenefits))
    by (intros s; apply Array_sort_stable).
  repeat split.
  - apply (StronglySorted_weaken scoreGe); [unfold scoreGe; intros; lia|].
    apply Array_sort_sorted.
  - apply Array_sort_Permutation.
  - exact Hstable.
  - intros s. change (fun m => (matchScore m =? s)%Z) with (hasScore s).
    rewrite Hstable, filter_toMatch. apply benefit_toMatch.
Qed.

(** C9.  Every match the scorer produces has a score between 0 and 100,
    and its two lists together are no longer than the list of
    requirements of its benefit: a requirement is entered in at most one
    of them.  This holds for the match of any benefit and so for every
    match [matchBenefits] returns. *)
Theorem match_invariant :
  forall profile : VeteranProfile,
    (forall benefit : Benefit, BenefitMatch_ok (toMatch profile benefit)) /\
    (forall (benefits : list Benefit) (m : BenefitMatch),
        In m (matchBenefits profile benefits) -> BenefitMatch_ok m).
Proof.
  intros profile. split.
  - apply toMatch_ok.
  - intros benefits m Hin. apply matchBenefits_In in Hin.
    destruct Hin as (b & _ & ->). apply toMatch_ok.
Qed.

(** ** The engine on the sample data *)

(** The profile of Austin against the Texas and federal entries: the
    rating requirement of [tx_property_tax] is met, the requirements
    without criteria stay open, and the matches come out by score. *)
Example austin_scenario :
  checkRequirement Sample.austinVeteran Sample.ratingRequirement
    = {| met := Some true; needsInfo := false |} /\
  map summary (matchBenefits Sample.austinVeteran Sample.catalog)
    = [ ("va-healthcare", 100%Z, likely);
        ("tx-property-tax", 50%Z, possible);
        ("va-disability", 33%Z, unlikely) ].
Proof. split; vm_compute; reflexivity. Qed.

(** An unknown postal code leaves the federal entries, and equal scores
    stay in the order of the catalog. *)
Example unknown_zip_scenario :
  map id (getBenefitsForLocation "99999" Sample.catalog)
    = ["va-healthcare"; "va-disability"] /\
  map summary (matchBenefits (Sample.blank "99999")
                             (Sample.va_disability :: Sample.bare :: Sample.catalog))
    = [ ("bare", 50%Z, unknown);
        ("va-disability", 0%Z, unknown);
        ("va-healthcare", 0%Z, unknown);
        ("va-disability", 0%Z, unknown) ].
Proof. split; vm_compute; reflexivity. Qed.

(** A name every object inherits is taken for a location without
    fields: the program without coverage is returned, the one for Texas
    is not. *)
Example inherited_name_scenario :
  lookupZipCode "constructor" = Some (Inherited "constructor") /\
  lookupZipCode "__proto__" = Some (Inherited "__proto__") /\
  map id (getBenefitsForLocation "constructor" (anywhere :: Sample.catalog))
    = ["anywhere"; "va-healthcare"; "va-disability"]%string /\
  map summary (matchBenefits (Sample.blank "__proto__")
                             (anywhere :: Sample.catalog))
    = [ ("anywhere", 50%Z, unknown);
        ("va-healthcare", 0%Z, unknown);
        ("va-disability", 0%Z, unknown) ]%string.
Proof. repeat split. Qed.

(** ** The theorems at concrete inputs *)

Lemma getBenefitsForLocation_resolved_witness :
  lookupZipCode "78701" = Some (Entry Sample.austin) /\
  (In Sample.tx_property_tax (getBenefitsForLocation "78701" Sample.catalog) <->
   In Sample.tx_property_tax Sample.catalog /\
   (level Sample.tx_property_tax = federal \/
    ((forall xs, states (coverage Sample.tx_property_tax) = Some xs ->
                 xs <> [] -> In (stateCode Sample.austin) xs) /\
     (forall xs, counties (coverage Sample.tx_property_tax) = Some xs ->
                 xs <> [] -> In (countyFips Sample.austin) xs) /\
     (forall xs, cities (coverage Sample.tx_property_tax) = Some xs ->
                 xs <> [] ->
                 In (loc_city Sample.austin ++ ", " ++ stateCode Sample.austin) xs) /\
     (forall xs, zipCodes (coverage Sample.tx_property_tax) = Some xs ->
                 xs <> [] -> In "78701" xs)))).
Proof.
  split; [reflexivity|].
  apply (@getBenefitsForLocation_resolved "78701" Sample.austin Sample.catalog).
  reflexivity.
Defined.


Lemma status_derivation_witness :
  cm_eligibilityStatus (calculateMatch (Sample.blank "78701") Sample.va_healthcare)
    = unknown /\
  cm_eligibilityStatus (calculateMatch Sample.austinVeteran Sample.va_healthcare)
    = likely /\
  cm_eligibilityStatus (calculateMatch Sample.austinVeteran Sample.tx_property_tax)
    = possible /\
  cm_eligibilityStatus (calculateMatch Sample.austinVeteran Sample.va_disability)
    = unlikely.
Proof.
  split; [|split; [|split]].
  - apply (proj1 (status_derivation (Sample.blank "78701") Sample.va_healthcare)).
    reflexivity.
  - apply (proj1 (proj2 (status_derivation Sample.austinVeteran Sample.va_healthcare))).
    + vm_compute. discriminate.
    + vm_compute. discriminate.
  - apply (proj1 (proj2 (proj2
             (status_derivation Sample.austinVeteran Sample.tx_property_tax)))).
    + vm_compute. discriminate.
    + vm_compute. split; [discriminate | reflexivity].
  - apply (proj2 (proj2 (proj2
             (status_derivation Sample.austinVeteran Sample.va_disability)))).
    + vm_compute. discriminate.
    + vm_compute. reflexivity.
Defined.

Lemma no_requirements_unknown_witness :
  requirements (eligibility Sample.bare) = [] /\
  cm_matchScore (calculateMatch Sample.austinVeteran Sample.bare) = 50%Z /\
  cm_eligibilityStatus (calculateMatch Sample.austinVeteran Sample.bare) = unknown.
Proof.
  split; [reflexivity|].
  apply (@no_requirements_unknown Sample.austinVeteran Sample.bare).
  reflexivity.
Defined.

Lemma family_requiresSpouse_witness :
  checkRequirement Sample.austinVeteran Sample.spouseRequirement
    = {| met := None; needsInfo := true |} /\
  checkRequirement Sample.lowRating Sample.spouseRequirement
    = {| met := Some false; needsInfo := false |}.
Proof.
  split.
  - refine (proj1 (@family_requiresSpouse Sample.austinVeteran
                     Sample.spouseRequirement _ _ _ _) _); reflexivity.
  - refine (proj2 (@family_requiresSpouse Sample.lowRating
                     Sample.spouseRequirement _ _ _ _) false _); reflexivity.
Defined.

Lemma income_never_resolved_witness :
  incomeLevel Sample.lowRating = Some low /\
  checkRequirement Sample.lowRating Sample.incomeRequirement
    = {| met := None; needsInfo := true |}.
Proof.
  split; [reflexivity|].
  apply (@income_never_resolved Sample.lowRating Sample.incomeRequirement).
  reflexivity.
Defined.

Lemma needsInfo_exactly_when_null_witness :
  met (checkRequirement Sample.lowRating Sample.ratingRequirement) = Some false /\
  scoreRequirement Sample.lowRating initialState Sample.ratingRequirement
    = initialState.
Proof.
  split; [reflexivity|].
  apply (proj1 (proj2 (needsInfo_exactly_when_null Sample.lowRating))).
  reflexivity.
Defined.

Lemma match_invariant_witness :
  BenefitMatch_ok (toMatch Sample.austinVeteran Sample.va_healthcare).
Proof.
  apply (proj2 (match_invariant Sample.austinVeteran) Sample.catalog).
  vm_compute. left. reflexivity.
Defined.

Lemma score_monotonic_witness :
  (scoreOf 1 3 <= scoreOf 2 3)%Z.
Proof.
  apply (@score_monotonic 3 1 2); lia.
Defined.


(** * Further properties *)

Local Open Scope list_scope.

(** ** The result grouper *)

Section Grouper.

Lemma inCategory_iff (c : BenefitCategory) (m : BenefitMatch) :
  inCategory c m = true <-> category (benefit m) = c.
Proof.
  unfold inCategory.
  destruct (BenefitCategory_eq_dec (category (benefit m)) c);
    split; congruence.
Qed.

Lemma filter_none (c : BenefitCategory) (ms : list BenefitMatch) :
  ~ In c (map categoryOf ms) -> filter (inCategory c) ms = [].
Proof.
  induction ms as [|m ms IH]; [reflexivity|]. cbn [map filter In].
  intros Hnot. destruct (inCategory c m) eqn:E.
  - apply inCategory_iff in E. unfold categoryOf in Hnot. tauto.
  - apply IH. tauto.
Qed.

Lemma filter_some (c : BenefitCategory) (ms : list BenefitMatch) :
  In c (map categoryOf ms) -> filter (inCategory c) ms <> [].
Proof.
  intros Hin Hnil. apply in_map_iff in Hin. destruct Hin as (m & Hc & Hm).
  unfold categoryOf in Hc.
  assert (H : In m (filter (inCategory c) ms))
    by (apply filter_In; split; [assumption | now apply inCategory_iff]).
  rewrite Hnil in H. exact H.
Qed.

Lemma firstSeen_In (c : BenefitCategory) (cs : list BenefitCategory) :
  In c (firstSeen cs) <-> In c cs.
Proof.
  induction cs as [|x cs IH]; [reflexivity|]. cbn [firstSeen In].
  destruct (BenefitCategory_eq_dec x c) as [E|N]; [tauto|].
  rewrite <- IH. split; intros [H|H]; try tauto; right.
  - now apply in_remove in H.
  - apply in_in_remove; [congruence | assumption].
Qed.

Lemma firstSeen_NoDup (cs : list BenefitCategory) : NoDup (firstSeen cs).
Proof.
  induction cs as [|x cs IH]; cbn [firstSeen]; constructor.
  - apply remove_In.
  - clear -IH. induction IH as [|y l Hy Hl IHl]; cbn [remove]; [constructor|].
    destruct (BenefitCategory_eq_dec x y); [assumption|].
    constructor; [|assumption].
    intros H. apply in_remove in H. tauto.
Qed.

(** A category seen again changes nothing; a new one goes last. *)
Lemma firstSeen_snoc (cs : list BenefitCategory) (c : BenefitCategory) :
  firstSeen (cs ++ [c]) =
  if in_dec BenefitCategory_eq_dec c cs then firstSeen cs
  else firstSeen cs ++ [c].
Proof.
  induction cs as [|x cs IH].
  - reflexivity.
  - cbn [app firstSeen]. rewrite IH.
    destruct (in_dec BenefitCategory_eq_dec c cs) as [Hin|Hnot];
      destruct (in_dec BenefitCategory_eq_dec c (x :: cs)) as [Hin'|Hnot'];
      try reflexivity; cbn [In] in *; try tauto.
    + destruct Hin' as [-> | ?]; [|tauto].
      rewrite remove_app. cbn [remove].
      destruct (BenefitCategory_eq_dec c c); [|congruence].
      now rewrite app_nil_r.
    + rewrite remove_app. cbn [remove].
      destruct (BenefitCategory_eq_dec x c); [tauto | reflexivity].
Qed.

Lemma Object_get_map (f : BenefitCategory -> list BenefitMatch)
  (keys : list BenefitCategory) (c : BenefitCategory) :
  Object_get (map (fun k => (k, f k)) keys) c =
  if in_dec BenefitCategory_eq_dec c keys then Some (f c) else None.
Proof.
  induction keys as [|k keys IH]; [reflexivity|]. cbn [map Object_get].
  destruct (BenefitCategory_eq_dec k c) as [->|N].
  - destruct (in_dec BenefitCategory_eq_dec c (c :: keys)) as [|Hn];
      [reflexivity | elim Hn; now left].
  - rewrite IH.
    destruct (in_dec BenefitCategory_eq_dec c keys),
             (in_dec BenefitCategory_eq_dec c (k :: keys)) as [Hin|Hn];
      cbn [In] in *; try reflexivity; tauto.
Qed.

Lemma Object_set_new (groups : Groups) (c : BenefitCategory)
  (v : list BenefitMatch) :
  ~ In c (map fst groups) -> Object_set groups c v = groups ++ [(c, v)].
Proof.
  induction groups as [|[k w] groups IH]; [reflexivity|].
  cbn [map fst In Object_set app]. intros Hnot.
  destruct (BenefitCategory_eq_dec k c); [tauto|].
  rewrite IH; [reflexivity | tauto].
Qed.

Lemma Object_set_last (groups : Groups) (c : BenefitCategory)
  (v w : list BenefitMatch) :
  ~ In c (map fst groups) ->
  Object_set (groups ++ [(c, v)]) c w = groups ++ [(c, w)].
Proof.
  induction groups as [|[k u] groups IH]; cbn [map fst In Object_set app].
  - intros _. destruct (BenefitCategory_eq_dec c c); [reflexivity | congruence].
  - intros Hnot. destruct (BenefitCategory_eq_dec k c); [tauto|].
    rewrite IH; [reflexivity | tauto].
Qed.

Lemma Object_get_last (groups : Groups) (c : BenefitCategory)
  (v : list BenefitMatch) :
  ~ In c (map fst groups) -> Object_get (groups ++ [(c, v)]) c = Some v.
Proof.
  induction groups as [|[k u] groups IH]; cbn [map fst In Object_get app].
  - intros _. destruct (BenefitCategory_eq_dec c c); [reflexivity | congruence].
  - intros Hnot. destruct (BenefitCategory_eq_dec k c); [tauto|].
    apply IH. tauto.
Qed.

Lemma Object_set_map (f : BenefitCategory -> list BenefitMatch)
  (keys : list BenefitCategory) (c : BenefitCategory) (v : list BenefitMatch) :
  In c keys ->
  Object_set (map (fun k => (k, f k)) keys) c v =
  map (fun k => (k, if BenefitCategory_eq_dec k c then v else f k)) keys \/
  ~ NoDup keys.
Proof.
  intros Hin. destruct (ListDec.NoDup_dec BenefitCategory_eq_dec keys) as [Hnd|];
    [left | now right].
  induction Hnd as [|k keys Hk Hnd IH]; [elim Hin|].
  cbn [map Object_set]. destruct (BenefitCategory_eq_dec k c) as [->|N].
  - f_equal. apply map_ext_in. intros k' Hk'.
    destruct (BenefitCategory_eq_dec k' c); [congruence | reflexivity].
  - f_equal. apply IH. destruct Hin; [congruence | assumption].
Qed.

(** One more match, on the grouping of those before it. *)
Lemma groupMatch_groupsOf (ms : list BenefitMatch) (m : BenefitMatch) :
  groupMatch (groupsOf ms) m = groupsOf (ms ++ [m]).
Proof.
  unfold groupMatch, groupsOf.
  change (category (benefit m)) with (categoryOf m).
  set (c := categoryOf m).
  set (keys := firstSeen (map categoryOf ms)).
  rewrite map_app. cbn [map]. fold c. rewrite firstSeen_snoc. fold keys.
  assert (Hkeys : map fst (map (fun k => (k, filter (inCategory k) ms)) keys)
                  = keys)
    by (rewrite map_map; apply map_id).
  assert (Hm : inCategory c m = true) by now apply inCategory_iff.
  rewrite Object_get_map.
  destruct (in_dec BenefitCategory_eq_dec c keys) as [Hin|Hnot];
    destruct (in_dec BenefitCategory_eq_dec c (map categoryOf ms)) as [Hin'|Hnot'];
    try (unfold keys in *; rewrite firstSeen_In in *; tauto).
  - rewrite Object_get_map.
    destruct (in_dec BenefitCategory_eq_dec c keys); [|tauto].
    destruct (Object_set_map (fun k => filter (inCategory k) ms) keys c
                (filter (inCategory c) ms ++ [m]) Hin) as [-> | Hdup];
      [|elim Hdup; apply firstSeen_NoDup].
    apply map_ext. intros k. f_equal. rewrite filter_app. cbn [filter].
    destruct (BenefitCategory_eq_dec k c) as [->|N].
    + now rewrite Hm.
    + destruct (inCategory k m) eqn:E.
      * apply inCategory_iff in E. unfold c, categoryOf in *. congruence.
      * now rewrite app_nil_r.
  - rewrite Object_set_new by now rewrite Hkeys.
    rewrite Object_get_last by now rewrite Hkeys.
    rewrite Object_set_last by now rewrite Hkeys.
    rewrite map_app. cbn [map app]. f_equal.
    + apply map_ext_in. intros k Hk. f_equal. rewrite filter_app. cbn [filter].
      destruct (inCategory k m) eqn:E; [|now rewrite app_nil_r].
      apply inCategory_iff in E. unfold c, categoryOf in *. congruence.
    + rewrite filter_app. cbn [filter]. rewrite Hm.
      now rewrite (filter_none c ms Hnot').
Qed.

Lemma groupBenefitsByCategory_groupsOf (ms : list BenefitMatch) :
  groupBenefitsByCategory ms = groupsOf ms.
Proof.
  unfold groupBenefitsByCategory.
  change (@nil (BenefitCategory * list BenefitMatch)) with (groupsOf []).
  rewrite <- (app_nil_l ms) at 2. generalize (@nil BenefitMatch) as done.
  induction ms as [|m ms IH]; intros done; cbn [fold_left].
  - now rewrite app_nil_r.
  - rewrite groupMatch_groupsOf, IH, <- app_assoc. reflexivity.
Qed.

End Grouper.

(** X17.  Under each category the grouping holds the matches of that
    category, in the order of the input; a category no match has is not
    a key of the object. *)
Theorem group_lookup :
  forall (matches : list BenefitMatch) (c : BenefitCategory),
    Object_get (groupBenefitsByCategory matches) c =
    match filter (inCategory c) matches with
    | [] => None
    | (_ :: _) as group => Some group
    end.
Proof.
  intros ms c. rewrite groupBenefitsByCategory_groupsOf. unfold groupsOf.
  rewrite Object_get_map.
  destruct (in_dec BenefitCategory_eq_dec c (firstSeen (map categoryOf ms)))
    as [Hin|Hnot]; rewrite firstSeen_In in *.
  - pose proof (filter_some c ms Hin).
    destruct (filter (inCategory c) ms); [congruence | reflexivity].
  - now rewrite (filter_none c ms Hnot).
Qed.

(** X18.  The keys of the grouping are the categories of the matches,
    each once, in the order in which they first occur. *)
Theorem group_keys :
  forall matches : list BenefitMatch,
    map fst (groupBenefitsByCategory matches)
      = firstSeen (map categoryOf matches) /\
    NoDup (map fst (groupBenefitsByCategory matches)).
Proof.
  intros ms. rewrite groupBenefitsByCategory_groupsOf. unfold groupsOf.
  rewrite map_map. cbn [fst]. rewrite map_id.
  split; [reflexivity | apply firstSeen_NoDup].
Qed.

Section Partition.

Lemma filter_split (p q : BenefitMatch -> bool) (ms : list BenefitMatch) :
  (forall m, p m = true -> q m = true -> False) ->
  Permutation (filter (fun m => p m || q m) ms) (filter p ms ++ filter q ms).
Proof.
  intros Hdisj. induction ms as [|m ms IH]; [reflexivity|]. cbn [filter].
  destruct (p m) eqn:Ep, (q m) eqn:Eq; cbn [orb app].
  - elim (Hdisj m Ep Eq).
  - now constructor.
  - now apply Permutation_cons_app.
  - exact IH.
Qed.

Lemma concat_groups (keys : list BenefitCategory) (ms : list BenefitMatch) :
  NoDup keys ->
  Permutation
    (List.concat (map (fun c => filter (inCategory c) ms) keys))
    (filter (fun m => existsb (fun c => inCategory c m) keys) ms).
Proof.
  induction 1 as [|c keys Hc Hnd IH]; cbn [map List.concat existsb].
  - induction ms as [|m ms IHms]; [reflexivity | exact IHms].
  - rewrite filter_split.
    + now apply Permutation_app_head.
    + intros m Hp Hq. apply inCategory_iff in Hp.
      apply existsb_exists in Hq. destruct Hq as (c' & Hin & Hc').
      apply inCategory_iff in Hc'. congruence.
Qed.

End Partition.

(** X19.  The groups together hold the matches of the input, each as
    often as the input has it, and no group is empty. *)
Theorem group_flatten :
  forall matches : list BenefitMatch,
    Permutation (List.concat (map snd (groupBenefitsByCategory matches))) matches /\
    (forall c group, In (c, group) (groupBenefitsByCategory matches) ->
                     group <> []).
Proof.
  intros ms. rewrite groupBenefitsByCategory_groupsOf. unfold groupsOf. split.
  - rewrite map_map. cbn [snd].
    rewrite concat_groups by apply firstSeen_NoDup.
    rewrite (filter_ext_in _ (fun _ => true)).
    + clear. induction ms as [|m ms IH]; [reflexivity|]. cbn [filter].
      now constructor.
    + intros m Hm. apply existsb_exists. exists (categoryOf m). split.
      * apply firstSeen_In. now apply in_map.
      * now apply inCategory_iff.
  - intros c group Hin. apply in_map_iff in Hin.
    destruct Hin as (c' & [= <- <-] & Hc). apply filter_some.
    now apply firstSeen_In.
Qed.

(** ** The location resolver and the location filter, further *)

(** X1.  The resolver gives a location of its table exactly at the
    three postal codes of the table, and that location carries the code
    it was asked for.  At the twelve names a plain object inherits from
    [Object.prototype] it gives what is found there, which is no
    location but passes for one; for every other string it gives null. *)
Theorem lookupZipCode_resolves :
  forall zipCode : string,
    ((exists location, lookupZipCode zipCode = Some (Entry location)) <->
     zipCode = "78701"%string \/ zipCode = "78205"%string
     \/ zipCode = "77001"%string) /\
    (forall location, lookupZipCode zipCode = Some (Entry location) ->
                      zip location = zipCode) /\
    ((exists name, lookupZipCode zipCode = Some (Inherited name)) <->
     In zipCode JS.Object_prototype) /\
    (lookupZipCode zipCode = None <->
     zipCode <> "78701"%string /\ zipCode <> "78205"%string /\
     zipCode <> "77001"%string /\ ~ In zipCode JS.Object_prototype).
Proof.
  intros z.
  assert (Hnames : forall k, In k ["78701"; "78205"; "77001"]%string ->
                             ~ In k JS.Object_prototype).
  { intros k Hk Hin. apply includes_In in Hin.
    destruct Hk as [<- | [<- | [<- | []]]]; discriminate. }
  unfold lookupZipCode, sampleData. cbn [lookupKey].
  destruct (String.eqb_spec z "78701") as [->|N1].
  { specialize (Hnames "78701"%string). cbn [In] in Hnames.
    repeat split; try (intros [? [=]]); try discriminate; eauto;
      try tauto; try now intros ? [= <-]. }
  destruct (String.eqb_spec z "78205") as [->|N2].
  { specialize (Hnames "78205"%string). cbn [In] in Hnames.
    repeat split; try (intros [? [=]]); try discriminate; eauto;
      try tauto; try now intros ? [= <-]. }
  destruct (String.eqb_spec z "77001") as [->|N3].
  { specialize (Hnames "77001"%string). cbn [In] in Hnames.
    repeat split; try (intros [? [=]]); try discriminate; eauto;
      try tauto; try now intros ? [= <-]. }
  destruct (JS.includes JS.Object_prototype z) eqn:E.
  - apply includes_In in E.
    repeat split; try (intros [? [=]]); try discriminate; eauto; tauto.
  - assert (Hnot : ~ In z JS.Object_prototype)
      by (rewrite <- includes_In; congruence).
    repeat split; try (intros [? [=]]); try discriminate; tauto.
Qed.

Section FilterFurther.

Lemma filter_Subsequence {A : Type} (f : A -> bool) (l : list A) :
  Subsequence (filter f l) l.
Proof.
  induction l as [|x l IH]; cbn [filter]; [constructor|].
  destruct (f x); now constructor.
Qed.

Lemma filter_idempotent {A : Type} (f : A -> bool) (l : list A) :
  filter f (filter f l) = filter f l.
Proof.
  induction l as [|x l IH]; [reflexivity|]. cbn [filter].
  destruct (f x) eqn:E; [|exact IH]. cbn [filter]. now rewrite E, IH.
Qed.

End FilterFurther.

(** X2.  A federal benefit of the catalog is returned at every postal
    code, resolved or not. *)
Theorem federal_always_included :
  forall (zipCode : string) (allBenefits : list Benefit) (b : Benefit),
    In b allBenefits -> level b = federal ->
    In b (getBenefitsForLocation zipCode allBenefits).
Proof.
  intros z all b Hin Hfed. apply isFederal_iff in Hfed.
  unfold getBenefitsForLocation.
  destruct (lookupZipCode z); apply filter_In; split; try assumption.
  unfold appliesAt. now rewrite Hfed.
Qed.

(** X3.  Catalogs can be filtered one by one: the result for two
    catalogs put together is the two results put together. *)
Theorem getBenefitsForLocation_app :
  forall (zipCode : string) (catalog1 catalog2 : list Benefit),
    getBenefitsForLocation zipCode (catalog1 ++ catalog2) =
    getBenefitsForLocation zipCode catalog1
    ++ getBenefitsForLocation zipCode catalog2.
Proof.
  intros z c1 c2. unfold getBenefitsForLocation.
  destruct (lookupZipCode z); apply filter_app.
Qed.

(** X4.  The filter only leaves benefits out: what it returns is the
    catalog with some entries removed, the others in their order, and
    filtering the result again changes nothing. *)
Theorem getBenefitsForLocation_subsequence :
  forall (zipCode : string) (allBenefits : list Benefit),
    Subsequence (getBenefitsForLocation zipCode allBenefits) allBenefits /\
    getBenefitsForLocation zipCode
      (getBenefitsForLocation zipCode allBenefits)
    = getBenefitsForLocation zipCode allBenefits.
Proof.
  intros z all. unfold getBenefitsForLocation.
  destruct (lookupZipCode z);
    split; [apply filter_Subsequence | apply filter_idempotent
           | apply filter_Subsequence | apply filter_idempotent].
Qed.

(** X5.  A benefit below the federal level that names no state, county,
    city or postal code is returned exactly when the resolver returns
    something other than null, be it a location of the table or an
    inherited value: where the resolver returns null it is withheld. *)
Theorem unrestricted_benefit :
  forall (zipCode : string) (allBenefits : list Benefit) (b : Benefit),
    level b <> federal ->
    unrestricted (states (coverage b)) ->
    unrestricted (counties (coverage b)) ->
    unrestricted (cities (coverage b)) ->
    unrestricted (zipCodes (coverage b)) ->
    (In b (getBenefitsForLocation zipCode allBenefits) <->
     In b allBenefits /\ lookupZipCode zipCode <> None).
Proof.
  intros z all b Hlevel Hs Hc Hci Hz.
  assert (Hfed : isFederal b = false)
    by (apply not_true_is_false; now rewrite isFederal_iff).
  unfold getBenefitsForLocation.
  destruct (lookupZipCode z) as [location|]; rewrite filter_In.
  - unfold appliesAt. rewrite Hfed.
    destruct Hs as [-> | ->], Hc as [-> | ->], Hci as [-> | ->],
      Hz as [-> | ->]; cbn; intuition congruence.
  - rewrite Hfed. intuition congruence.
Qed.

(** ** The requirement evaluator, further *)

(** X6.  The evaluator reaches a verdict only for a requirement that has
    criteria and is of type 'disability', 'service' or 'family', and
    only with the profile field and the criteria field that type
    compares: a requirement without criteria, or of any other type, is
    never resolved. *)
Theorem verdict_needs_criteria :
  forall (profile : VeteranProfile) (req : EligibilityRequirement) (b : bool),
    met (checkRequirement profile req) = Some b ->
    exists c, criteria req = Some c /\
      ((req_type req = "disability"%string /\
        disabilityRating profile <> None /\ minDisabilityRating c <> None) \/
       (req_type req = "service"%string /\
        ((dischargeTypes c <> None /\ dischargeStatus profile <> None) \/
         (minServiceDays c <> None /\ yearsOfService profile <> None))) \/
       (req_type req = "family"%string /\
        requiresSpouse c = Some true /\ hasSpouse profile <> None)).
Proof.
  intros profile req b. unfold checkRequirement.
  destruct (criteria req) as [c|]; [|discriminate].
  intros H. exists c. split; [reflexivity|].
  destruct (String.eqb_spec (req_type req) "disability") as [E|_].
  { left. destruct (disabilityRating profile), (minDisabilityRating c);
      try discriminate. now repeat split. }
  destruct (String.eqb_spec (req_type req) "service") as [E|_].
  { right; left. split; [assumption|].
    destruct (dischargeTypes c), (dischargeStatus profile) as [[|? ?]|],
      (minServiceDays c), (yearsOfService profile);
      try discriminate; (left; now split) || (right; now split). }
  destruct (String.eqb_spec (req_type req) "income") as [E|_].
  { now destruct (incomeLevel profile). }
  destruct (String.eqb_spec (req_type req) "family") as [E|_];
    [|discriminate].
  right; right. destruct (requiresSpouse c) as [[|]|], (hasSpouse profile);
    try discriminate. now repeat split.
Qed.

(** X7.  A disability requirement with a minimum rating, for a profile
    with a rating, is met exactly when the rating reaches the minimum,
    and is settled either way. *)
Theorem disability_threshold :
  forall (profile : VeteranProfile) (req : EligibilityRequirement)
         (c : Criteria) (rating minRating : Q),
    req_type req = "disability"%string ->
    criteria req = Some c ->
    disabilityRating profile = Some rating ->
    minDisabilityRating c = Some minRating ->
    (minRating <= rating ->
     checkRequirement profile req = {| met := Some true; needsInfo := false |}) /\
    (rating < minRating ->
     checkRequirement profile req = {| met := Some false; needsInfo := false |}).
Proof.
  intros profile req c rating minRating Ht Hc Hr Hm.
  unfold checkRequirement. rewrite Hc, Ht, Hr, Hm. cbn [String.eqb Ascii.eqb Bool.eqb].
  unfold verdict, JS.geq. split; intros H.
  - apply Qle_bool_iff in H. now rewrite H.
  - destruct (Qle_bool minRating rating) eqn:E; [|reflexivity].
    apply Qle_bool_iff in E. lra.
Qed.

(** X8.  For a service requirement that lists discharge types, a profile
    with a discharge status is judged on that status alone: the verdict
    is whether the status is listed, and the minimum of service days of
    the same requirement is not looked at. *)
Theorem discharge_decides :
  forall (profile : VeteranProfile) (req : EligibilityRequirement)
         (c : Criteria) (types : list string) (status : string),
    req_type req = "service"%string ->
    criteria req = Some c ->
    dischargeTypes c = Some types ->
    dischargeStatus profile = Some status ->
    status <> ""%string ->
    (In status types ->
     checkRequirement profile req = {| met := Some true; needsInfo := false |}) /\
    (~ In status types ->
     checkRequirement profile req = {| met := Some false; needsInfo := false |}).
Proof.
  intros profile req c types status Ht Hc Hty Hst Hne.
  unfold checkRequirement. rewrite Hc, Ht, Hty, Hst.
  cbn [String.eqb Ascii.eqb Bool.eqb].
  destruct status as [|a status]; [congruence|]. unfold verdict.
  split; intros H.
  - apply includes_In in H. now rewrite H.
  - destruct (JS.includes types (String a status)) eqn:E; [|reflexivity].
    apply includes_In in E. tauto.
Qed.

(** X9.  For a service requirement with a minimum of service days and no
    discharge types, a profile with a whole number of years of service
    is judged on 365 days a year, exactly: the requirement is met when
    the minimum is at most 365 times the years, and not met otherwise. *)
Theorem service_days_whole_years :
  forall (profile : VeteranProfile) (req : EligibilityRequirement)
         (c : Criteria) (minDays : Q) (years : Z),
    req_type req = "service"%string ->
    criteria req = Some c ->
    dischargeTypes c = None ->
    minServiceDays c = Some minDays ->
    yearsOfService profile = Some (inject_Z years) ->
    (0 <= years * 365 <= 2 ^ 53)%Z ->
    (minDays <= inject_Z (years * 365) ->
     checkRequirement profile req = {| met := Some true; needsInfo := false |}) /\
    (inject_Z (years * 365) < minDays ->
     checkRequirement profile req = {| met := Some false; needsInfo := false |}).
Proof.
  intros profile req c minDays years Ht Hc Hty Hd Hy Hbound.
  unfold checkRequirement. rewrite Hc, Ht, Hty, Hd, Hy.
  cbn [String.eqb Ascii.eqb Bool.eqb].
  assert (Hdays : JS.mul (inject_Z years) 365 == inject_Z (years * 365)).
  { unfold JS.mul.
    rewrite (toDouble_compat (inject_Z years * 365) (inject_Z (years * 365)))
      by (rewrite inject_Z_mult; reflexivity).
    now apply toDouble_integer. }
  unfold verdict, JS.geq. split; intros H.
  - assert (E : Qle_bool minDays (JS.mul (inject_Z years) 365) = true)
      by (apply Qle_bool_iff; rewrite Hdays; exact H).
    now rewrite E.
  - destruct (Qle_bool minDays (JS.mul (inject_Z years) 365)) eqn:E;
      [|reflexivity].
    apply Qle_bool_iff in E. rewrite Hdays in E. lra.
Qed.

(** X10.  An empty discharge status counts as none: whatever the
    requirement, the evaluator answers for a profile whose status is the
    empty string as for the same profile without a status. *)
Theorem empty_discharge_status :
  forall (profile profile' : VeteranProfile) (req : EligibilityRequirement),
    dischargeStatus profile = Some ""%string ->
    dischargeStatus profile' = None ->
    disabilityRating profile = disabilityRating profile' ->
    yearsOfService profile = yearsOfService profile' ->
    hasSpouse profile = hasSpouse profile' ->
    checkRequirement profile req = checkRequirement profile' req.
Proof.
  intros p p' req Hs Hs' Hr Hy Hh.
  unfold checkRequirement. rewrite Hs, Hs', Hr, Hy, Hh.
  destruct (criteria req) as [c|]; [|reflexivity].
  destruct (incomeLevel p), (incomeLevel p'), (dischargeTypes c); reflexivity.
Qed.

(** X11.  The evaluator reads four fields of the profile: the disability
    rating, the discharge status, the years of service and the spouse
    flag.  Two profiles that agree on these get the same answer for
    every requirement, whatever their postal code, income level or
    other fields. *)
Theorem evaluator_reads_four_fields :
  forall (profile profile' : VeteranProfile) (req : EligibilityRequirement),
    disabilityRating profile = disabilityRating profile' ->
    dischargeStatus profile = dischargeStatus profile' ->
    yearsOfService profile = yearsOfService profile' ->
    hasSpouse profile = hasSpouse profile' ->
    checkRequirement profile req = checkRequirement profile' req.
Proof.
  intros p p' req Hr Hs Hy Hh.
  unfold checkRequirement. rewrite Hr, Hs, Hy, Hh.
  destruct (criteria req) as [c|]; [|reflexivity].
  destruct (incomeLevel p), (incomeLevel p'); reflexivity.
Qed.

(** ** The scorer, further *)

Section ScorerFurther.
Variable profile : VeteranProfile.

Lemma filter_all {A : Type} (f : A -> bool) (l : list A) :
  (forall x, In x l -> f x = true) -> filter f l = l.
Proof.
  induction l as [|x l IH]; [reflexivity|]. cbn [filter In]. intros H.
  rewrite (H x) by now left. f_equal. apply IH. intros y Hy. apply H. now right.
Qed.

Lemma filter_nothing {A : Type} (f : A -> bool) (l : list A) :
  (forall x, In x l -> f x = false) -> filter f l = [].
Proof.
  induction l as [|x l IH]; [reflexivity|]. cbn [filter In]. intros H.
  rewrite (H x) by now left. apply IH. intros y Hy. apply H. now right.
Qed.

Lemma filter_length_all {A : Type} (f : A -> bool) (l : list A) :
  List.length (filter f l) = List.length l <->
  (forall x, In x l -> f x = true).
Proof.
  split; [|intros H; now rewrite filter_all].
  induction l as [|x l IH]; [intros _ y []|]. cbn [filter].
  pose proof (filter_length_le f l) as Hle.
  destruct (f x) eqn:E; cbn [List.length]; intros Hlen.
  - intros y [<- | Hy]; [assumption | apply IH; [lia | assumption]].
  - lia.
Qed.

Lemma isMet_iff (req : EligibilityRequirement) :
  isMet profile req = true <-> met (checkRequirement profile req) = Some true.
Proof.
  unfold isMet. destruct (met (checkRequirement profile req)) as [[|]|];
    cbn; split; congruence.
Qed.

Lemma isOpen_iff (req : EligibilityRequirement) :
  isOpen profile req = true <-> met (checkRequirement profile req) = None.
Proof.
  unfold isOpen. destruct (met (checkRequirement profile req));
    cbn; split; congruence.
Qed.

End ScorerFurther.

(** X12.  When every requirement of a benefit is met, and there is at
    least one, the score is 100, the status is 'likely', the matched
    list holds every description in order and nothing is missing. *)
Theorem all_met_likely :
  forall (profile : VeteranProfile) (benefit : Benefit),
    requirements (eligibility benefit) <> [] ->
    (forall req, In req (requirements (eligibility benefit)) ->
                 met (checkRequirement profile req) = Some true) ->
    calculateMatch profile benefit =
    {| cm_matchScore := 100;
       cm_eligibilityStatus := likely;
       cm_matchedRequirements :=
         map description (requirements (eligibility benefit));
       cm_missingInfo := [] |}.
Proof.
  intros profile benefit Hne Hall.
  assert (Hmet : filter (isMet profile) (requirements (eligibility benefit))
                 = requirements (eligibility benefit)).
  { apply filter_all. intros req Hreq. now apply isMet_iff, Hall. }
  assert (Hopen : filter (isOpen profile) (requirements (eligibility benefit))
                  = []).
  { apply filter_nothing. intros req Hreq. apply not_true_is_false.
    rewrite isOpen_iff, (Hall req Hreq). discriminate. }
  pose proof (calculateMatch_matched profile benefit) as Hm.
  pose proof (calculateMatch_missing profile benefit) as Ho.
  pose proof (calculateMatch_score profile benefit) as Hs.
  pose proof (calculateMatch_status profile benefit) as Hst.
  rewrite Hmet in Hm, Hs. rewrite Hopen in Ho. cbn [map] in Ho.
  assert (Hlen : (0 < List.length (requirements (eligibility benefit)))%nat)
    by (destruct (requirements (eligibility benefit)); [congruence | cbn; lia]).
  rewrite (proj2 (scoreOf_extremes _ Hlen)) in Hs.
  rewrite Ho, Hs in Hst. cbn [List.length] in Hst.
  destruct (Nat.eqb_spec 0 (List.length (requirements (eligibility benefit))))
    as [E|_] in Hst; [lia|].
  change (80 <=? 100)%Z with true in Hst.
  destruct (calculateMatch profile benefit) as [score status matched missing].
  cbn [cm_matchScore cm_eligibilityStatus cm_matchedRequirements
       cm_missingInfo] in *.
  congruence.
Qed.

(** X13.  The status is 'unknown' exactly when the evaluator leaves
    every requirement of the benefit open; a benefit without
    requirements is the case where there is none to leave. *)
Theorem unknown_iff_all_open :
  forall (profile : VeteranProfile) (benefit : Benefit),
    cm_eligibilityStatus (calculateMatch profile benefit) = unknown <->
    (forall req, In req (requirements (eligibility benefit)) ->
                 met (checkRequirement profile req) = None).
Proof.
  intros profile benefit.
  rewrite calculateMatch_status, calculateMatch_missing, length_map.
  transitivity
    (List.length (filter (isOpen profile) (requirements (eligibility benefit)))
     = List.length (requirements (eligibility benefit))).
  - destruct (Nat.eqb_spec
                (List.length (filter (isOpen profile)
                                     (requirements (eligibility benefit))))
                (List.length (requirements (eligibility benefit)))) as [E|N].
    + tauto.
    + split; [|tauto].
      destruct (80 <=? _)%Z; [discriminate|].
      destruct (50 <=? _)%Z; discriminate.
  - rewrite filter_length_all. split; intros H req Hreq.
    + now apply isOpen_iff, H.
    + now apply isOpen_iff, H.
Qed.

(** X14.  When no requirement of a benefit is met, and there is at least
    one, the score is 0, the matched list is empty and the status is
    'unknown' or 'unlikely'. *)
Theorem none_met_zero :
  forall (profile : VeteranProfile) (benefit : Benefit),
    requirements (eligibility benefit) <> [] ->
    (forall req, In req (requirements (eligibility benefit)) ->
                 met (checkRequirement profile req) <> Some true) ->
    cm_matchScore (calculateMatch profile benefit) = 0%Z /\
    cm_matchedRequirements (calculateMatch profile benefit) = [] /\
    (cm_eligibilityStatus (calculateMatch profile benefit) = unknown \/
     cm_eligibilityStatus (calculateMatch profile benefit) = unlikely).
Proof.
  intros profile benefit Hne Hnone.
  assert (Hmet : filter (isMet profile) (requirements (eligibility benefit))
                 = []).
  { apply filter_nothing. intros req Hreq. apply not_true_is_false.
    rewrite isMet_iff. now apply Hnone. }
  assert (Hlen : (0 < List.length (requirements (eligibility benefit)))%nat)
    by (destruct (requirements (eligibility benefit)); [congruence | cbn; lia]).
  assert (Hs : cm_matchScore (calculateMatch profile benefit) = 0%Z).
  { rewrite calculateMatch_score, Hmet. apply (scoreOf_extremes _ Hlen). }
  split; [exact Hs | split].
  - now rewrite calculateMatch_matched, Hmet.
  - rewrite calculateMatch_status, Hs.
    destruct (_ =? _)%nat; [now left | now right].
Qed.

(** ** The pipeline and the grouper together *)

Section PipelineFurther.

Lemma scoreRequirement_same (p p' : VeteranProfile) :
  (forall req, checkRequirement p req = checkRequirement p' req) ->
  forall reqs st,
    fold_left (scoreRequirement p) reqs st =
    fold_left (scoreRequirement p') reqs st.
Proof.
  intros Hsame reqs. induction reqs as [|req reqs IH]; intros st;
    [reflexivity|].
  cbn [fold_left]. unfold scoreRequirement at 2 4. rewrite Hsame. apply IH.
Qed.

Lemma StronglySorted_filter {A : Type} (R : A -> A -> Prop) (f : A -> bool)
  (l : list A) :
  StronglySorted R l -> StronglySorted R (filter f l).
Proof.
  induction 1 as [|x l Hs IH Hx]; cbn [filter]; [constructor|].
  destruct (f x); [|exact IH]. constructor; [exact IH|].
  apply Forall_forall. intros y Hy. apply filter_In in Hy.
  rewrite Forall_forall in Hx. now apply Hx.
Qed.

Lemma group_of_category (ms g : list BenefitMatch) (c : BenefitCategory) :
  Object_get (groupBenefitsByCategory ms) c = Some g ->
  g = filter (inCategory c) ms.
Proof.
  rewrite groupBenefitsByCategory_groupsOf. unfold groupsOf.
  rewrite Object_get_map. destruct (in_dec _ _ _); congruence.
Qed.

End PipelineFurther.

(** X15.  For a profile at whose postal code the resolver returns
    null, the matches are those of the federal benefits of the catalog
    and no others. *)
Theorem matchBenefits_unresolved :
  forall (profile : VeteranProfile) (benefits : list Benefit),
    lookupZipCode (zipCode profile) = None ->
    forall m : BenefitMatch,
      In m (matchBenefits profile benefits) <->
      exists b, In b benefits /\ level b = federal /\ m = toMatch profile b.
Proof.
  intros profile benefits Hres m. rewrite matchBenefits_In.
  unfold getBenefitsForLocation. rewrite Hres.
  split; intros (b & Hb & Hm).
  - apply filter_In in Hb. destruct Hb as [Hb Hfed].
    apply isFederal_iff in Hfed. eauto.
  - destruct Hm as [Hfed ->]. exists b. split; [|reflexivity].
    apply filter_In. split; [assumption | now apply isFederal_iff].
Qed.

(** X16.  The whole pipeline reads five fields of the profile: the
    postal code, the disability rating, the discharge status, the years
    of service and the spouse flag.  Profiles that agree on these get
    the same matches in the same order; the income level, the
    dependents and survivor flags, the service eras and the branch do
    not enter. *)
Theorem pipeline_reads_five_fields :
  forall (profile profile' : VeteranProfile) (benefits : list Benefit),
    zipCode profile = zipCode profile' ->
    disabilityRating profile = disabilityRating profile' ->
    dischargeStatus profile = dischargeStatus profile' ->
    yearsOfService profile = yearsOfService profile' ->
    hasSpouse profile = hasSpouse profile' ->
    matchBenefits profile benefits = matchBenefits profile' benefits.
Proof.
  intros p p' benefits Hz Hr Hs Hy Hh.
  assert (Hsame : forall req, checkRequirement p req = checkRequirement p' req).
  { intros req. unfold checkRequirement. rewrite Hr, Hs, Hy, Hh.
    destruct (criteria req) as [c|]; [|reflexivity].
    destruct (incomeLevel p), (incomeLevel p'); reflexivity. }
  unfold matchBenefits. rewrite Hz. f_equal. apply map_ext. intros b.
  unfold toMatch, calculateMatch.
  now rewrite (scoreRequirement_same p p' Hsame).
Qed.

(** X20.  Grouping the ranked matches keeps the ranking: each group of
    the matches [matchBenefits] returns is in descending order of score. *)
Theorem group_ranked :
  forall (profile : VeteranProfile) (benefits : list Benefit)
         (c : BenefitCategory) (group : list BenefitMatch),
    Object_get (groupBenefitsByCategory (matchBenefits profile benefits)) c
      = Some group ->
    StronglySorted (fun a b => (matchScore a >= matchScore b)%Z) group.
Proof.
  intros profile benefits c group Hget.
  apply group_of_category in Hget. subst group.
  apply StronglySorted_filter.
  apply (StronglySorted_weaken scoreGe); [unfold scoreGe; intros; lia|].
  apply Array_sort_sorted.
Qed.


(** ** Status and score, the location table *)

Section StatusFurther.

Lemma status_unknown_open (profile : VeteranProfile) (benefit : Benefit) :
  cm_eligibilityStatus (calculateMatch profile benefit) = unknown ->
  forall req, In req (requirements (eligibility benefit)) ->
              isOpen profile req = true.
Proof.
  rewrite calculateMatch_status, calculateMatch_missing, length_map.
  destruct (Nat.eqb_spec
              (List.length (filter (isOpen profile)
                                   (requirements (eligibility benefit))))
              (List.length (requirements (eligibility benefit)))) as [E|N].
  - intros _. now apply filter_length_all.
  - destruct (80 <=? _)%Z; [discriminate|].
    destruct (50 <=? _)%Z; discriminate.
Qed.

Lemma resolved_in_texas (zipCode : string) (location : ZipLocation) :
  lookupZipCode zipCode = Some (Entry location) ->
  stateCode location = "TX"%string.
Proof.
  unfold lookupZipCode, sampleData. cbn [lookupKey].
  destruct (zipCode =? "78701")%string; [now intros [= <-]|].
  destruct (zipCode =? "78205")%string; [now intros [= <-]|].
  destruct (zipCode =? "77001")%string; [now intros [= <-]|].
  destruct (JS.includes _ _); discriminate.
Qed.

End StatusFurther.

(** X21.  Every location of the resolver's table is in Texas: a benefit
    below the federal level whose only restriction is a list of states
    with 'TX' in it is returned exactly at the postal codes for which
    the resolver gives a location of its table.  Where the resolver
    gives null, or an inherited value, which has no state code, the
    benefit is left out. *)
Theorem texas_statewide :
  forall (zipCode : string) (allBenefits : list Benefit) (b : Benefit)
         (codes : list string),
    level b <> federal ->
    states (coverage b) = Some codes ->
    In "TX"%string codes ->
    unrestricted (counties (coverage b)) ->
    unrestricted (cities (coverage b)) ->
    unrestricted (zipCodes (coverage b)) ->
    (In b (getBenefitsForLocation zipCode allBenefits) <->
     In b allBenefits /\
     exists location, lookupZipCode zipCode = Some (Entry location)).
Proof.
  intros z all b codes Hlevel Hs Htx Hc Hci Hz.
  assert (Hfed : isFederal b = false)
    by (apply not_true_is_false; now rewrite isFederal_iff).
  unfold getBenefitsForLocation.
  destruct (lookupZipCode z) as [[location|name]|] eqn:Hres;
    rewrite filter_In.
  - assert (Hstate : excludes (states (coverage b))
                              (readField stateCode (Entry location)) = false).
    { apply excludes_false_iff. intros xs Hxs _.
      rewrite (resolved_in_texas z location Hres). congruence. }
    unfold appliesAt. rewrite Hfed, Hstate.
    destruct Hc as [-> | ->], Hci as [-> | ->], Hz as [-> | ->];
      cbn; intuition eauto.
  - assert (Hstate : excludes (states (coverage b))
                              (readField stateCode (Inherited name)) = true).
    { apply not_false_is_true. cbn [readField].
      rewrite excludes_undefined, Hs.
      intros [H|H]; [discriminate|]. injection H as ->. exact Htx. }
    unfold appliesAt. rewrite Hfed, Hstate.
    split; [intros [_ H]; discriminate | intros [_ [l H]]; discriminate].
  - rewrite Hfed.
    split; [intros [_ H]; discriminate | intros [_ [l H]]; discriminate].
Qed.

(** X22.  The status never says more than the score: 'likely' comes only
    with a score of at least 80, 'possible' only with a score from 50 to
    79, 'unlikely' only with a score below 50. *)
Theorem status_sound :
  forall (profile : VeteranProfile) (benefit : Benefit),
    (cm_eligibilityStatus (calculateMatch profile benefit) = likely ->
     (80 <= cm_matchScore (calculateMatch profile benefit))%Z) /\
    (cm_eligibilityStatus (calculateMatch profile benefit) = possible ->
     (50 <= cm_matchScore (calculateMatch profile benefit) < 80)%Z) /\
    (cm_eligibilityStatus (calculateMatch profile benefit) = unlikely ->
     (cm_matchScore (calculateMatch profile benefit) < 50)%Z).
Proof.
  intros profile benefit. rewrite calculateMatch_status.
  destruct (_ =? _)%nat; [repeat split; discriminate|].
  destruct (Z.leb_spec 80 (cm_matchScore (calculateMatch profile benefit)));
    [repeat split; (discriminate || (intros _; lia))|].
  destruct (Z.leb_spec 50 (cm_matchScore (calculateMatch profile benefit)));
    repeat split; try discriminate; try (intros _; lia); lia.
Qed.

(** X23.  The status 'unknown' comes with one of two scores: 50 for a
    benefit without requirements, 0 for any other. *)
Theorem unknown_score :
  forall (profile : VeteranProfile) (benefit : Benefit),
    cm_eligibilityStatus (calculateMatch profile benefit) = unknown ->
    (requirements (eligibility benefit) = [] /\
     cm_matchScore (calculateMatch profile benefit) = 50%Z) \/
    (requirements (eligibility benefit) <> [] /\
     cm_matchScore (calculateMatch profile benefit) = 0%Z).
Proof.
  intros profile benefit Hunknown.
  pose proof (status_unknown_open profile benefit Hunknown) as Hopen.
  assert (Hmet : filter (isMet profile) (requirements (eligibility benefit))
                 = []).
  { apply filter_nothing. intros req Hreq. specialize (Hopen req Hreq).
    unfold isOpen, isMet in *.
    now destruct (met (checkRequirement profile req)). }
  rewrite calculateMatch_score, Hmet. cbn [List.length].
  destruct (requirements (eligibility benefit)) as [|req reqs].
  - left. split; reflexivity.
  - right. split; [discriminate|].
    apply (scoreOf_extremes (List.length (req :: reqs))). cbn. lia.
Qed.

(** X24.  At a name inherited from [Object.prototype], such as
    'constructor', the filter runs as for a location whose fields are
    all undefined: a benefit below the federal level is kept exactly
    when it names no state and no county, its cities are absent, empty
    or list the string 'undefined, undefined', and its postal codes are
    absent, empty or list the name itself. *)
Theorem inherited_name_filter :
  forall (zipCode : string) (allBenefits : list Benefit) (b : Benefit),
    In zipCode JS.Object_prototype ->
    level b <> federal ->
    (In b (getBenefitsForLocation zipCode allBenefits) <->
     In b allBenefits /\
     unrestricted (states (coverage b)) /\
     unrestricted (counties (coverage b)) /\
     (forall xs, cities (coverage b) = Some xs -> xs <> [] ->
                 In "undefined, undefined"%string xs) /\
     (forall xs, zipCodes (coverage b) = Some xs -> xs <> [] ->
                 In zipCode xs)).
Proof.
  intros z all b Hname Hlevel.
  assert (Hfed : isFederal b = false)
    by (apply not_true_is_false; now rewrite isFederal_iff).
  assert (Hres : lookupZipCode z = Some (Inherited z)).
  { unfold lookupZipCode.
    assert (Hown : lookupKey sampleData z = None)
      by (cbn [In JS.Object_prototype] in Hname;
          repeat (destruct Hname as [<- | Hname]; [reflexivity|]);
          elim Hname).
    apply includes_In in Hname. now rewrite Hown, Hname. }
  unfold getBenefitsForLocation. rewrite Hres, filter_In.
  rewrite <- !excludes_undefined, <- !excludes_false_iff.
  unfold appliesAt, cityKey. cbn [readField JS.toString]. rewrite Hfed.
  change ("undefined" ++ ", " ++ "undefined")%string
    with "undefined, undefined"%string.
  destruct (excludes (states _) _), (excludes (counties _) _),
    (excludes (cities _) _), (excludes (zipCodes _) _);
    intuition congruence.
Qed.

(** ** The further properties at concrete inputs *)

Lemma lookupZipCode_resolves_witness :
  lookupZipCode "78701" = Some (Entry Sample.austin) /\
  zip Sample.austin = "78701"%string /\
  (exists name, lookupZipCode "constructor" = Some (Inherited name)) /\
  lookupZipCode "99999" = None.
Proof.
  split; [reflexivity | split; [|split]].
  - apply (proj1 (proj2 (lookupZipCode_resolves "78701")) Sample.austin).
    reflexivity.
  - apply (proj2 (proj1 (proj2 (proj2 (lookupZipCode_resolves "constructor"))))).
    left. reflexivity.
  - apply (proj2 (proj2 (proj2 (proj2 (lookupZipCode_resolves "99999"))))).
    repeat split; try discriminate.
    intros Hin. apply includes_In in Hin. discriminate.
Defined.

Lemma federal_always_included_witness :
  In Sample.va_disability (getBenefitsForLocation "00000" Sample.catalog).
Proof.
  apply (federal_always_included "00000" Sample.catalog Sample.va_disability).
  - right; right; left. reflexivity.
  - reflexivity.
Defined.

Lemma unrestricted_benefit_witness :
  (In anywhere (getBenefitsForLocation "77001" (anywhere :: Sample.catalog)) <->
   In anywhere (anywhere :: Sample.catalog) /\ lookupZipCode "77001" <> None) /\
  (In anywhere (getBenefitsForLocation "99999" (anywhere :: Sample.catalog)) <->
   In anywhere (anywhere :: Sample.catalog) /\ lookupZipCode "99999" <> None) /\
  (In anywhere
      (getBenefitsForLocation "constructor" (anywhere :: Sample.catalog)) <->
   In anywhere (anywhere :: Sample.catalog)
   /\ lookupZipCode "constructor" <> None).
Proof.
  split; [|split].
  - apply (unrestricted_benefit "77001" (anywhere :: Sample.catalog) anywhere);
      [discriminate | now left | now left | now left | now left].
  - apply (unrestricted_benefit "99999" (anywhere :: Sample.catalog) anywhere);
      [discriminate | now left | now left | now left | now left].
  - apply (unrestricted_benefit "constructor" (anywhere :: Sample.catalog)
             anywhere);
      [discriminate | now left | now left | now left | now left].
Defined.

Lemma verdict_needs_criteria_witness :
  met (checkRequirement Sample.lowRating Sample.ratingRequirement) = Some false /\
  exists c, criteria Sample.ratingRequirement = Some c /\
    ((req_type Sample.ratingRequirement = "disability"%string /\
      disabilityRating Sample.lowRating <> None /\
      minDisabilityRating c <> None) \/
     (req_type Sample.ratingRequirement = "service"%string /\
      ((dischargeTypes c <> None /\ dischargeStatus Sample.lowRating <> None) \/
       (minServiceDays c <> None /\ yearsOfService Sample.lowRating <> None))) \/
     (req_type Sample.ratingRequirement = "family"%string /\
      requiresSpouse c = Some true /\ hasSpouse Sample.lowRating <> None)).
Proof.
  split; [reflexivity|].
  apply (verdict_needs_criteria Sample.lowRating Sample.ratingRequirement false).
  reflexivity.
Defined.

Lemma disability_threshold_witness :
  checkRequirement Sample.austinVeteran Sample.ratingRequirement
    = {| met := Some true; needsInfo := false |} /\
  checkRequirement Sample.lowRating Sample.ratingRequirement
    = {| met := Some false; needsInfo := false |}.
Proof.
  split.
  - refine (proj1 (disability_threshold Sample.austinVeteran
                     Sample.ratingRequirement _ 80 10 _ _ _ _) _);
      [reflexivity | reflexivity | reflexivity | reflexivity | discriminate].
  - refine (proj2 (disability_threshold Sample.lowRating
                     Sample.ratingRequirement _ 5 10 _ _ _ _) _);
      [reflexivity | reflexivity | reflexivity | reflexivity | reflexivity].
Defined.

Lemma discharge_decides_witness :
  checkRequirement oneYear serviceRequirement
    = {| met := Some true; needsInfo := false |}.
Proof.
  refine (proj1 (discharge_decides oneYear serviceRequirement _
                   ["honorable"%string] "honorable" _ _ _ _ _) _);
    [reflexivity | reflexivity | reflexivity | reflexivity | discriminate
    | now left].
Defined.

Lemma service_days_whole_years_witness :
  checkRequirement oneYear daysRequirement
    = {| met := Some true; needsInfo := false |}.
Proof.
  refine (proj1 (service_days_whole_years oneYear daysRequirement _ 181 1
                   _ _ _ _ _ _) _);
    [reflexivity | reflexivity | reflexivity | reflexivity | reflexivity
    | split; discriminate | discriminate].
Defined.

Lemma empty_discharge_status_witness :
  checkRequirement emptyStatus serviceRequirement
    = checkRequirement noStatus serviceRequirement.
Proof.
  apply (empty_discharge_status emptyStatus noStatus serviceRequirement);
    reflexivity.
Defined.

Lemma evaluator_reads_four_fields_witness :
  checkRequirement survivor Sample.incomeRequirement
    = checkRequirement (Sample.blank "78701") Sample.incomeRequirement.
Proof.
  apply (evaluator_reads_four_fields survivor (Sample.blank "78701")
           Sample.incomeRequirement); reflexivity.
Defined.

Lemma all_met_likely_witness :
  calculateMatch Sample.austinVeteran Sample.va_healthcare =
  {| cm_matchScore := 100;
     cm_eligibilityStatus := likely;
     cm_matchedRequirements :=
       map description (requirements (eligibility Sample.va_healthcare));
     cm_missingInfo := [] |}.
Proof.
  apply (all_met_likely Sample.austinVeteran Sample.va_healthcare).
  - discriminate.
  - intros req [<- | [<- | []]]; reflexivity.
Defined.

Lemma unknown_iff_all_open_witness :
  cm_eligibilityStatus (calculateMatch (Sample.blank "78701") Sample.va_disability)
    = unknown.
Proof.
  apply (proj2 (unknown_iff_all_open (Sample.blank "78701") Sample.va_disability)).
  intros req [<- | [<- | [<- | []]]]; reflexivity.
Defined.

Lemma none_met_zero_witness :
  cm_matchScore (calculateMatch Sample.lowRating Sample.tx_property_tax) = 0%Z /\
  cm_matchedRequirements (calculateMatch Sample.lowRating Sample.tx_property_tax)
    = [] /\
  (cm_eligibilityStatus (calculateMatch Sample.lowRating Sample.tx_property_tax)
     = unknown \/
   cm_eligibilityStatus (calculateMatch Sample.lowRating Sample.tx_property_tax)
     = unlikely).
Proof.
  apply (none_met_zero Sample.lowRating Sample.tx_property_tax).
  - discriminate.
  - intros req [<- | [<- | []]]; discriminate.
Defined.

Lemma matchBenefits_unresolved_witness :
  In (toMatch (Sample.blank "99999") Sample.va_healthcare)
     (matchBenefits (Sample.blank "99999") Sample.catalog).
Proof.
  apply (proj2 (matchBenefits_unresolved (Sample.blank "99999") Sample.catalog
                  eq_refl _)).
  exists Sample.va_healthcare. split; [|split; reflexivity].
  right; left. reflexivity.
Defined.

Lemma pipeline_reads_five_fields_witness :
  matchBenefits survivor Sample.catalog
    = matchBenefits (Sample.blank "78701") Sample.catalog.
Proof.
  apply (pipeline_reads_five_fields survivor (Sample.blank "78701")
           Sample.catalog); reflexivity.
Defined.

Lemma group_flatten_witness :
  In (financial,
      map (toMatch Sample.austinVeteran)
          [Sample.tx_property_tax; Sample.tx_property_tax])
     (groupBenefitsByCategory sampleMatches) /\
  map (toMatch Sample.austinVeteran)
      [Sample.tx_property_tax; Sample.tx_property_tax] <> [].
Proof.
  assert (Hin : In (financial,
                    map (toMatch Sample.austinVeteran)
                        [Sample.tx_property_tax; Sample.tx_property_tax])
                   (groupBenefitsByCategory sampleMatches))
    by (left; reflexivity).
  split; [exact Hin|].
  exact (proj2 (group_flatten sampleMatches) financial _ Hin).
Defined.

Lemma group_ranked_witness :
  StronglySorted (fun a b => (matchScore a >= matchScore b)%Z)
    (map (toMatch Sample.austinVeteran)
         [Sample.va_healthcare; Sample.va_healthcare]).
Proof.
  apply (group_ranked Sample.austinVeteran
           (Sample.va_healthcare :: Sample.catalog) healthcare).
  reflexivity.
Defined.

Lemma texas_statewide_witness :
  In Sample.tx_property_tax (getBenefitsForLocation "78205" Sample.catalog) <->
  In Sample.tx_property_tax Sample.catalog /\
  exists location, lookupZipCode "78205" = Some (Entry location).
Proof.
  apply (texas_statewide "78205" Sample.catalog Sample.tx_property_tax
           ["TX"%string]);
    [discriminate | reflexivity | now left | now left | now left | now left].
Defined.

Lemma status_sound_witness :
  (80 <= cm_matchScore (calculateMatch Sample.austinVeteran Sample.va_healthcare))%Z.
Proof.
  apply (proj1 (status_sound Sample.austinVeteran Sample.va_healthcare)).
  reflexivity.
Defined.

Lemma unknown_score_witness :
  (requirements (eligibility Sample.va_disability) = [] /\
   cm_matchScore (calculateMatch (Sample.blank "78701") Sample.va_disability)
     = 50%Z) \/
  (requirements (eligibility Sample.va_disability) <> [] /\
   cm_matchScore (calculateMatch (Sample.blank "78701") Sample.va_disability)
     = 0%Z).
Proof.
  apply (unknown_score (Sample.blank "78701") Sample.va_disability).
  reflexivity.
Defined.

Lemma inherited_name_filter_witness :
  In anywhere (getBenefitsForLocation "constructor" (anywhere :: Sample.catalog))
  /\ ~ In Sample.tx_property_tax
         (getBenefitsForLocation "constructor" (anywhere :: Sample.catalog)).
Proof.
  split.
  - apply (inherited_name_filter "constructor" (anywhere :: Sample.catalog)
             anywhere); [now left | discriminate |].
    split; [now left|]. split; [now left|]. split; [now left|].
    split; intros xs [=].
  - intros Hin.
    apply (inherited_name_filter "constructor" (anywhere :: Sample.catalog)
             Sample.tx_property_tax) in Hin; [|now left | discriminate].
    destruct Hin as (_ & [H|H] & _); discriminate.
Defined.
